(** * Cache sizing registry of [synapse/config/cache.py]

    A shallow embedding of the module [synapse.config.cache]: the module-level
    registry [_CACHES], the process-wide [DEFAULT_CACHE_SIZE_FACTOR], the
    installed callback [_ENSURE_CORRECT_CACHE_SIZING], the function
    [add_resizable_cache] and the methods [CacheConfig._reset] and
    [CacheConfig.read_config].

    Modelling choices.
    - Python values are the inductive [pyval]; dictionaries are association
      lists in insertion order with the update-in-place behaviour of [dict]
      (iteration order decides which of two colliding keys wins and which
      error is raised first).  Dictionary keys are strings.
    - Strings are byte strings and [lower] is ASCII lower-casing.
    - Python's [float], which the module calls on environment strings, and
      [Config.parse_size], which lives in [_base.py], are parameters
      ([Host], [Base]); both may raise.
    - Exceptions and the mutation of module globals and of the [CacheConfig]
      object are threaded through the monad [M]; a raised exception keeps
      every mutation made before it, as in Python.
    - [CacheConfig] objects live in a heap: the closure [ensure_cache_sizes]
      captures [self] and reads [self.cache_factors] and [self.global_factor]
      when it is called, not when it is created.
    - A resize callback is opaque: calling it is recorded as a [call] in the
      trace; callbacks return normally and do not touch the module state. *)

From Stdlib Require Import ZArith Ascii String List Bool Lia QArith.
From stdpp Require Import base option list strings gmap.

Set Warnings "-register-all".

Local Open Scope string_scope.
Local Open Scope list_scope.

(** ** Strings *)

Module Str.

(** [c.lower()] on one ASCII character. *)
Definition lower_ascii (c : ascii) : ascii :=
  let n := nat_of_ascii c in
  if (Nat.leb 65 n && Nat.leb n 90)%bool then ascii_of_nat (n + 32) else c.

(** [s.lower()] *)
Fixpoint lower (s : string) : string :=
  match s with
  | EmptyString => EmptyString
  | String c r => String (lower_ascii c) (lower r)
  end.

(** [s.startswith(p)] *)
Fixpoint startswith (p s : string) : bool :=
  match p, s with
  | EmptyString, _ => true
  | String a p', String b s' => (Ascii.eqb a b && startswith p' s')%bool
  | String _ _, EmptyString => false
  end.

(** [s[n:]] *)
Fixpoint slice_from (n : nat) (s : string) : string :=
  match n, s with
  | O, _ => s
  | S n', String _ s' => slice_from n' s'
  | S _, EmptyString => EmptyString
  end.

End Str.

(** ** Dictionaries in insertion order *)

Module Dict.
Section Dict.
Context {V : Type}.

(** [d.get(k)] *)
Fixpoint get (d : list (string * V)) (k : string) : option V :=
  match d with
  | [] => None
  | (k', v) :: r => if String.eqb k' k then Some v else get r k
  end.

(** [d.get(k, dflt)] *)
Definition get_default (d : list (string * V)) (k : string) (dflt : V) : V :=
  match get d k with Some v => v | None => dflt end.

(** [d[k] = v]: an existing key keeps its position, a new key goes last. *)
Fixpoint set (d : list (string * V)) (k : string) (v : V) : list (string * V) :=
  match d with
  | [] => [(k, v)]
  | (k', v') :: r =>
      if String.eqb k' k then (k', v) :: r else (k', v') :: set r k v
  end.

(** [d.update(other)] *)
Definition update (d other : list (string * V)) : list (string * V) :=
  fold_left (fun acc kv => set acc (fst kv) (snd kv)) other d.

Definition keys (d : list (string * V)) : list string := map fst d.

End Dict.
End Dict.

(** ** Python values *)

(** Python's [float] type and the operations the module uses on it. *)
Class Host := {
float : Type;
(** [float(s)] on a string; [None] is [ValueError] *)
float_of_str : string -> option float;
(** the literal [0.5] *)
float_half : float;
(** [x == 0.0], which decides the truth value of a float *)
float_is_zero : float -> bool;
}.

Section Values.
Context `{Host}.

Inductive pyval : Type :=
| PyNone
| PyBool (b : bool)
| PyInt (z : Z)
| PyFloat (f : float)
| PyStr (s : string)
| PyList (l : list pyval)
| PyDict (d : list (string * pyval)).

(** [isinstance(v, (int, float))]; [bool] is a subclass of [int]. *)
Definition is_number (v : pyval) : bool :=
  match v with
  | PyBool _ | PyInt _ | PyFloat _ => true
  | _ => false
  end.

(** [isinstance(v, dict)] *)
Definition is_dict (v : pyval) : bool :=
  match v with PyDict _ => true | _ => false end.

(** [bool(v)], the truth value that [or] tests. *)
Definition truthy (v : pyval) : bool :=
  match v with
  | PyNone => false
  | PyBool b => b
  | PyInt z => negb (Z.eqb z 0)
  | PyFloat f => negb (float_is_zero f)
  | PyStr s => negb (String.eqb s "")
  | PyList l => match l with [] => false | _ => true end
  | PyDict d => match d with [] => false | _ => true end
  end.

(** [a or b] *)
Definition py_or (a b : pyval) : pyval := if truthy a then a else b.

End Values.

(** ** Module state *)

(** Identity of a [CacheConfig] object and of a resize callback. *)
Definition obj := nat.
Definition callback := nat.

Inductive exn : Type :=
| ConfigError (msg : string)
| ValueError
| AttributeError
| SizeError.

Inductive result (A : Type) : Type :=
| Ok (a : A)
| Raise (e : exn).
Arguments Ok {A} a.
Arguments Raise {A} e.

Section Model.
Context `{Host}.

(** [Config.parse_size] of [_base.py]; [None] when it raises. *)
Class Base := { parse_size : pyval -> option Z }.
Context `{Base}.

(** Attributes of a [CacheConfig] object; [None] is an attribute that was
    never assigned.  [_environ] is the class attribute [os.environ] unless
    the object overrides it. *)
Record CacheConfig := {
  event_cache_size : option Z;
  global_factor : option pyval;
  cache_factors : option (list (string * pyval));
  _environ : option (list (string * string));
}.

Definition new_config : CacheConfig :=
  {| event_cache_size := None; global_factor := None;
     cache_factors := None; _environ := None |}.

Definition with_event_cache_size (z : Z) (c : CacheConfig) : CacheConfig :=
  {| event_cache_size := Some z; global_factor := global_factor c;
     cache_factors := cache_factors c; _environ := _environ c |}.

Definition with_global_factor (v : pyval) (c : CacheConfig) : CacheConfig :=
  {| event_cache_size := event_cache_size c; global_factor := Some v;
     cache_factors := cache_factors c; _environ := _environ c |}.

Definition with_cache_factors (d : list (string * pyval)) (c : CacheConfig)
  : CacheConfig :=
  {| event_cache_size := event_cache_size c; global_factor := global_factor c;
     cache_factors := Some d; _environ := _environ c |}.

(** The module globals, the process environment and the object heap. *)
Record state := {
  _CACHES : list (string * callback);
  DEFAULT_CACHE_SIZE_FACTOR : pyval;
  _ENSURE_CORRECT_CACHE_SIZING : option obj;
  os_environ : list (string * string);
  heap : gmap obj CacheConfig;
}.

Definition with_CACHES (r : list (string * callback)) (s : state) : state :=
  {| _CACHES := r;
     DEFAULT_CACHE_SIZE_FACTOR := DEFAULT_CACHE_SIZE_FACTOR s;
     _ENSURE_CORRECT_CACHE_SIZING := _ENSURE_CORRECT_CACHE_SIZING s;
     os_environ := os_environ s; heap := heap s |}.

Definition with_DEFAULT (v : pyval) (s : state) : state :=
  {| _CACHES := _CACHES s;
     DEFAULT_CACHE_SIZE_FACTOR := v;
     _ENSURE_CORRECT_CACHE_SIZING := _ENSURE_CORRECT_CACHE_SIZING s;
     os_environ := os_environ s; heap := heap s |}.

Definition with_ENSURE (f : option obj) (s : state) : state :=
  {| _CACHES := _CACHES s;
     DEFAULT_CACHE_SIZE_FACTOR := DEFAULT_CACHE_SIZE_FACTOR s;
     _ENSURE_CORRECT_CACHE_SIZING := f;
     os_environ := os_environ s; heap := heap s |}.

Definition with_heap (h : gmap obj CacheConfig) (s : state) : state :=
  {| _CACHES := _CACHES s;
     DEFAULT_CACHE_SIZE_FACTOR := DEFAULT_CACHE_SIZE_FACTOR s;
     _ENSURE_CORRECT_CACHE_SIZING := _ENSURE_CORRECT_CACHE_SIZING s;
     os_environ := os_environ s; heap := h |}.

(** The object behind a reference; an object no attribute was set on yet
    is [new_config]. *)
Definition deref (self : obj) (s : state) : CacheConfig :=
  match heap s !! self with Some c => c | None => new_config end.

(** [self._environ]: the object's own attribute, or the class attribute
    [os.environ]. *)
Definition environ_of (self : obj) (s : state) : list (string * string) :=
  match _environ (deref self s) with Some e => e | None => os_environ s end.

(** One invocation [callback(factor)] of the callback registered under
    [name]. *)
Inductive call : Type :=
| Resize (name : string) (cb : callback) (factor : pyval).

(** ** The monad: state, exceptions and the trace of callback calls *)

Definition M (A : Type) : Type := state -> result A * state * list call.

Definition ret {A} (a : A) : M A := fun s => (Ok a, s, []).

Definition raise {A} (e : exn) : M A := fun s => (Raise e, s, []).

Definition bind {A B} (m : M A) (k : A -> M B) : M B :=
  fun s =>
    match m s with
    | (Ok a, s1, t1) =>
        match k a s1 with (r, s2, t2) => (r, s2, t1 ++ t2) end
    | (Raise e, s1, t1) => (Raise e, s1, t1)
    end.

Definition gets {A} (f : state -> A) : M A := fun s => (Ok (f s), s, []).

Definition modify (f : state -> state) : M unit := fun s => (Ok tt, f s, []).

Definition emit (c : call) : M unit := fun s => (Ok tt, s, [c]).

Definition lift {A} (e : exn) (o : option A) : M A :=
  match o with Some a => ret a | None => raise e end.

Definition of_result {A} (r : result A) : M A :=
  match r with Ok a => ret a | Raise e => raise e end.

Notation "x <- m ;; k" := (bind m (fun x => k))
  (at level 100, m at next level, right associativity).
Notation "m ;;; k" := (bind m (fun _ => k))
  (at level 100, right associativity).

(** [for x in l: body(x)] *)
Fixpoint for_each {A} (l : list A) (body : A -> M unit) : M unit :=
  match l with
  | [] => ret tt
  | x :: r => body x ;;; for_each r body
  end.

(** The state after [self.attr = v]. *)
Definition store (self : obj) (f : CacheConfig -> CacheConfig) (s : state)
  : state :=
  with_heap (<[self := f (deref self s)]> (heap s)) s.

(** [self.attr = v] *)
Definition setattr (self : obj) (f : CacheConfig -> CacheConfig) : M unit :=
  modify (store self f).

(** [self.attr]; reading an attribute that was never assigned raises. *)
Definition getattr {A} (self : obj) (f : CacheConfig -> option A) : M A :=
  c <- gets (deref self) ;; lift AttributeError (f c).

(** [v.get(k, dflt)]: only a dictionary has the method. *)
Definition py_get (v : pyval) (k : string) (dflt : pyval) : M pyval :=
  match v with
  | PyDict d => ret (Dict.get_default d k dflt)
  | _ => raise AttributeError
  end.

(** ** The module *)

Definition _CACHE_PREFIX : string := "SYNAPSE_CACHE_FACTOR".

(** [float(os.environ.get(_CACHE_PREFIX, 0.5))] *)
Definition default_factor_from (env : list (string * string)) : result float :=
  match Dict.get env _CACHE_PREFIX with
  | Some s =>
      match float_of_str s with Some f => Ok f | None => Raise ValueError end
  | None => Ok float_half
  end.

(** State of the module once it is imported: the three module-level
    assignments.  The import itself raises when the environment value does
    not parse. *)
Definition import_module (env : list (string * string))
  (h : gmap obj CacheConfig) : result state :=
  match default_factor_from env with
  | Ok f =>
      Ok {| _CACHES := []; DEFAULT_CACHE_SIZE_FACTOR := PyFloat f;
            _ENSURE_CORRECT_CACHE_SIZING := None;
            os_environ := env; heap := h |}
  | Raise e => Raise e
  end.

(** The closure [ensure_cache_sizes] that [read_config] defines, lines
    110-113: it is identified by the [self] it captures. *)
Definition ensure_cache_sizes (self : obj) : M unit :=
  caches <- gets _CACHES ;;
  for_each caches (fun entry =>
    cf <- getattr self cache_factors ;;
    gf <- getattr self global_factor ;;
    emit (Resize (fst entry) (snd entry)
            (Dict.get_default cf (fst entry) gf))).

(** [add_resizable_cache], lines 46-49. *)
Definition add_resizable_cache (cache_name : string)
  (cache_resize_callback : callback) : M unit :=
  modify (fun s =>
    with_CACHES
      (Dict.set (_CACHES s) (Str.lower cache_name) cache_resize_callback) s) ;;;
  f <- gets _ENSURE_CORRECT_CACHE_SIZING ;;
  match f with
  | Some self => ensure_cache_sizes self
  | None => ret tt
  end.

(** [CacheConfig._reset], lines 57-67. *)
Definition _reset : M unit :=
  env <- gets os_environ ;;
  f <- of_result (default_factor_from env) ;;
  modify (with_DEFAULT (PyFloat f)) ;;;
  modify (with_ENSURE None) ;;;
  modify (with_CACHES []).

(** The dictionary comprehension over [self._environ.items()], lines 88-92,
    with the items still to visit and the dictionary built so far. *)
Fixpoint env_factors (items : list (string * string))
  (acc : list (string * pyval)) : result (list (string * pyval)) :=
  match items with
  | [] => Ok acc
  | (key, val) :: r =>
      if Str.startswith (_CACHE_PREFIX ++ "_") key then
        match float_of_str val with
        | Some f =>
            env_factors r
              (Dict.set acc
                 (Str.lower (Str.slice_from (String.length _CACHE_PREFIX + 1) key))
                 (PyFloat f))
        | None => Raise ValueError
        end
      else env_factors r acc
  end.

Definition msg_global_factor : string :=
  "caches.global_factor must be a number.".

Definition msg_not_a_dict : string :=
  "caches.per_cache_factors must be a dictionary".

(** ["caches.per_cache_factors.%s must be a number" % (name,)] *)
Definition msg_per_cache (name : string) : string :=
  "caches.per_cache_factors." ++ name ++ " must be a number".

(** [self.cache_factors[k] = v] *)
Definition setitem_cache_factors (self : obj) (k : string) (v : pyval) : M unit :=
  d <- getattr self cache_factors ;;
  setattr self (with_cache_factors (Dict.set d k v)).

(** The mapping the loop of lines 102-107 builds from the merged items,
    starting from [acc]. *)
Definition normalised (items acc : list (string * pyval))
  : list (string * pyval) :=
  fold_left (fun m kv => Dict.set m (Str.lower (fst kv)) (snd kv)) items acc.

(** The body of the loop of lines 102-107. *)
Definition check_and_store (self : obj) (entry : string * pyval) : M unit :=
  if negb (is_number (snd entry)) then
    raise (ConfigError (msg_per_cache (Str.lower (fst entry))))
  else setitem_cache_factors self (Str.lower (fst entry)) (snd entry).

(** [CacheConfig.read_config], lines 69-116. *)
Definition read_config (self : obj) (config : list (string * pyval)) : M unit :=
  (* line 70 *)
  size <- lift SizeError
            (parse_size (Dict.get_default config "event_cache_size" (PyStr "10K"))) ;;
  setattr self (with_event_cache_size size) ;;;
  (* line 75 *)
  let cache_config := Dict.get_default config "caches" (PyDict []) in
  (* lines 77-81: the attribute is assigned before it is checked *)
  dflt <- gets DEFAULT_CACHE_SIZE_FACTOR ;;
  gf <- py_get cache_config "global_factor" dflt ;;
  setattr self (with_global_factor gf) ;;;
  if negb (is_number gf) then raise (ConfigError msg_global_factor)
  else
    (* line 84 *)
    modify (with_DEFAULT gf) ;;;
    (* lines 88-92 *)
    environ <- gets (environ_of self) ;;
    individual_factors <- of_result (env_factors environ []) ;;
    (* lines 94-96 *)
    pcf <- py_get cache_config "per_cache_factors" (PyDict []) ;;
    let individual_factors_config := py_or pcf (PyDict []) in
    match individual_factors_config with
    | PyDict d =>
        (* line 98 *)
        let individual_factors := Dict.update individual_factors d in
        (* lines 100-107 *)
        setattr self (with_cache_factors []) ;;;
        for_each individual_factors (check_and_store self) ;;;
        (* lines 115-116 *)
        modify (with_ENSURE (Some self)) ;;;
        ensure_cache_sizes self
    | _ => raise (ConfigError msg_not_a_dict)
    end.

(** ** A client of the module

    The operations a process performs on the module, one after the other;
    an exception is caught by the caller, and the mutations made before it
    stay. *)

Inductive op : Type :=
| Register (cache_name : string) (cb : callback)
| Load (self : obj) (config : list (string * pyval))
| Reset.

Definition perform (o : op) : M unit :=
  match o with
  | Register n cb => add_resizable_cache n cb
  | Load self config => read_config self config
  | Reset => _reset
  end.

Definition is_ok {A} (r : result A) : bool :=
  match r with Ok _ => true | Raise _ => false end.

(** Final state and trace of a sequence of operations. *)
Fixpoint run (ops : list op) (s : state) : state * list call :=
  match ops with
  | [] => (s, [])
  | o :: r =>
      match perform o s with
      | (_, s1, t1) => match run r s1 with (s2, t2) => (s2, t1 ++ t2) end
      end
  end.

(** No [Load] of the sequence completes. *)
Fixpoint no_load_succeeds (ops : list op) (s : state) : bool :=
  match ops with
  | [] => true
  | o :: r =>
      match perform o s with
      | (res, s1, _) =>
          match o with
          | Load _ _ => negb (is_ok res)
          | _ => true
          end && no_load_succeeds r s1
      end
  end.

(** Neither a completed [Load] nor a [Reset] in the sequence. *)
Fixpoint no_load_no_reset (ops : list op) (s : state) : bool :=
  match ops with
  | [] => true
  | o :: r =>
      match perform o s with
      | (res, s1, _) =>
          match o with
          | Load _ _ => negb (is_ok res)
          | Reset => false
          | Register _ _ => true
          end && no_load_no_reset r s1
      end
  end.

(** The calls of a trace that went to the cache registered as [name]. *)
Definition call_name (c : call) : string :=
  match c with Resize n _ _ => n end.

Definition calls_to (name : string) (t : list call) : list call :=
  filter (fun c => call_name c = name) t.

(** What one run of [ensure_cache_sizes] delivers for the mapping [m] and
    the global factor [g]: one call per registry entry, in registry order. *)
Definition resize_all (m : list (string * pyval)) (g : pyval)
  (reg : list (string * callback)) : list call :=
  map (fun e => Resize (fst e) (snd e) (Dict.get_default m (fst e) g)) reg.

(** ** Notions the statements use *)

Definition numeric (kv : string * pyval) : Prop := is_number (snd kv) = true.

(** The state [read_config] on [self] leaves behind: the registry and the
    environment of [s], the given default factor and installed closure, and
    [self] pointing to [c]. *)
Definition stage (self : obj) (dflt : pyval) (ensure : option obj)
  (c : CacheConfig) (s : state) : state :=
  {| _CACHES := _CACHES s;
     DEFAULT_CACHE_SIZE_FACTOR := dflt;
     _ENSURE_CORRECT_CACHE_SIZING := ensure;
     os_environ := os_environ s;
     heap := <[self := c]> (heap s) |}.

(** The expressions of [read_config] that decide its path. *)
Definition size_arg (config : list (string * pyval)) : pyval :=
  Dict.get_default config "event_cache_size" (PyStr "10K").

Definition cache_config (config : list (string * pyval)) : pyval :=
  Dict.get_default config "caches" (PyDict []).

Definition resolved_global (cc : list (string * pyval)) (s : state) : pyval :=
  Dict.get_default cc "global_factor" (DEFAULT_CACHE_SIZE_FACTOR s).

Definition individual_factors_config (cc : list (string * pyval)) : pyval :=
  py_or (Dict.get_default cc "per_cache_factors" (PyDict [])) (PyDict []).

(** [self] once [event_cache_size] and [global_factor] are assigned. *)
Definition sized (self : obj) (size : Z) (g : pyval) (s : state) : CacheConfig :=
  with_global_factor g (with_event_cache_size size (deref self s)).

(** The seven ways a run of [read_config] on [self] can end, each with the
    conditions on the input that select it, the state it leaves and the
    calls it made. *)
Inductive outcome (self : obj) (config : list (string * pyval)) (s : state)
  : result unit * state * list call -> Prop :=
| out_size :
    parse_size (size_arg config) = None ->
    outcome self config s (Raise SizeError, s, [])
| out_attribute size :
    parse_size (size_arg config) = Some size ->
    is_dict (cache_config config) = false ->
    outcome self config s
      (Raise AttributeError,
       stage self (DEFAULT_CACHE_SIZE_FACTOR s) (_ENSURE_CORRECT_CACHE_SIZING s)
         (with_event_cache_size size (deref self s)) s,
       [])
| out_global size cc :
    parse_size (size_arg config) = Some size ->
    cache_config config = PyDict cc ->
    is_number (resolved_global cc s) = false ->
    outcome self config s
      (Raise (ConfigError msg_global_factor),
       stage self (DEFAULT_CACHE_SIZE_FACTOR s) (_ENSURE_CORRECT_CACHE_SIZING s)
         (sized self size (resolved_global cc s) s) s,
       [])
| out_environ size cc e :
    parse_size (size_arg config) = Some size ->
    cache_config config = PyDict cc ->
    is_number (resolved_global cc s) = true ->
    env_factors (environ_of self s) [] = Raise e ->
    outcome self config s
      (Raise e,
       stage self (resolved_global cc s) (_ENSURE_CORRECT_CACHE_SIZING s)
         (sized self size (resolved_global cc s) s) s,
       [])
| out_not_a_dict size cc envd :
    parse_size (size_arg config) = Some size ->
    cache_config config = PyDict cc ->
    is_number (resolved_global cc s) = true ->
    env_factors (environ_of self s) [] = Ok envd ->
    is_dict (individual_factors_config cc) = false ->
    outcome self config s
      (Raise (ConfigError msg_not_a_dict),
       stage self (resolved_global cc s) (_ENSURE_CORRECT_CACHE_SIZING s)
         (sized self size (resolved_global cc s) s) s,
       [])
| out_per_cache size cc envd d pre k v post :
    parse_size (size_arg config) = Some size ->
    cache_config config = PyDict cc ->
    is_number (resolved_global cc s) = true ->
    env_factors (environ_of self s) [] = Ok envd ->
    individual_factors_config cc = PyDict d ->
    Dict.update envd d = pre ++ (k, v) :: post ->
    Forall numeric pre ->
    is_number v = false ->
    outcome self config s
      (Raise (ConfigError (msg_per_cache (Str.lower k))),
       stage self (resolved_global cc s) (_ENSURE_CORRECT_CACHE_SIZING s)
         (with_cache_factors (normalised pre [])
            (sized self size (resolved_global cc s) s)) s,
       [])
| out_loaded size cc envd d :
    parse_size (size_arg config) = Some size ->
    cache_config config = PyDict cc ->
    is_number (resolved_global cc s) = true ->
    env_factors (environ_of self s) [] = Ok envd ->
    individual_factors_config cc = PyDict d ->
    Forall numeric (Dict.update envd d) ->
    outcome self config s
      (Ok tt,
       stage self (resolved_global cc s) (Some self)
         (with_cache_factors (normalised (Dict.update envd d) [])
            (sized self size (resolved_global cc s) s)) s,
       resize_all (normalised (Dict.update envd d) []) (resolved_global cc s)
         (_CACHES s)).

(** The environment names that [read_config] turns into per-cache keys. *)
Definition env_name (key : string) : string :=
  Str.lower (Str.slice_from (String.length _CACHE_PREFIX + 1) key).

Definition is_override (key : string) : bool :=
  Str.startswith (_CACHE_PREFIX ++ "_") key.

(** The value the loop of lines 102-107 leaves under the name [n]: the one
    of the last item whose key lower-cases to [n]. *)
Definition resolve (n : string) (items : list (string * pyval))
  (init : option pyval) : option pyval :=
  fold_left
    (fun r kv => if String.eqb (Str.lower (fst kv)) n then Some (snd kv) else r)
    items init.

(** Some suffix of [merged] holds an item for [n], and all its items for
    [n] carry a value in [P]. *)
Definition settled (P : pyval -> Prop) (n : string)
  (merged : list (string * pyval)) : Prop :=
  exists pre post,
    merged = pre ++ post /\
    (forall k v, (k, v) ∈ post -> Str.lower k = n -> P v) /\
    (exists k v, (k, v) ∈ post /\ Str.lower k = n).

(** The keys of [merged] are distinct and the only key for [n] is [n]
    itself. *)
Definition plain (n : string) (merged : list (string * pyval)) : Prop :=
  NoDup (Dict.keys merged) /\
  forall k, k ∈ Dict.keys merged -> Str.lower k = n -> k = n.

(** The registry has distinct names, and the object captured by the
    installed closure has both attributes the closure reads. *)
Definition consistent (s : state) : Prop :=
  NoDup (Dict.keys (_CACHES s)) /\
  forall self, _ENSURE_CORRECT_CACHE_SIZING s = Some self ->
    exists m g, cache_factors (deref self s) = Some m /\
                global_factor (deref self s) = Some g.

(** The closure of [self] is installed and [self] holds [m] and [g]. *)
Definition installed (self : obj) (m : list (string * pyval)) (g : pyval)
  (s : state) : Prop :=
  _ENSURE_CORRECT_CACHE_SIZING s = Some self /\
  cache_factors (deref self s) = Some m /\
  global_factor (deref self s) = Some g.

(** No operation of the sequence is a [Load] on [self]. *)
Definition leaves_alone (self : obj) (ops : list op) : bool :=
  forallb
    (fun act =>
       match act with
       | Load o _ => negb (Nat.eqb o self)
       | _ => true
       end)
    ops.



End Model.

(** ** A host for the examples

    Floats are rationals, [float] reads unsigned decimal integers, and
    [parse_size] reads an integer or digits followed by [K] or [M]. *)

Module Demo.

Definition digit (c : ascii) : option Z :=
  let n := nat_of_ascii c in
  if (Nat.leb 48 n && Nat.leb n 57)%bool then Some (Z.of_nat (n - 48)) else None.

Fixpoint digits (s : string) (acc : Z) (seen : bool) : option Z :=
  match s with
  | EmptyString => if seen then Some acc else None
  | String c r =>
      match digit c with
      | Some n => digits r (10 * acc + n)%Z true
      | None => None
      end
  end.

Fixpoint size (s : string) (acc : Z) (seen : bool) : option Z :=
  match s with
  | EmptyString => if seen then Some acc else None
  | String c r =>
      match digit c with
      | Some n => size r (10 * acc + n)%Z true
      | None =>
          if (seen && String.eqb r "")%bool then
            if Ascii.eqb c "K" then Some (acc * 1024)%Z
            else if Ascii.eqb c "M" then Some (acc * 1024 * 1024)%Z
            else None
          else None
      end
  end.

#[export] Instance host : Host := {|
  float := Q;
  float_of_str := fun s => option_map inject_Z (digits s 0 false);
  float_half := (1 # 2)%Q;
  float_is_zero := fun q => Qeq_bool q 0%Q;
|}.

#[export] Instance base : Base := {|
  parse_size := fun v =>
    match v with
    | PyInt z => Some z
    | PyStr s => size s 0 false
    | _ => None
    end;
|}.

(** The module as imported in a process whose environment is [env] (the
    registry is empty either way; the default factor is [0.5] should the
    import fail). *)
Definition fresh (env : list (string * string)) : state :=
  match import_module env ∅ with
  | Ok s => s
  | Raise _ =>
      {| _CACHES := [];
         DEFAULT_CACHE_SIZE_FACTOR := PyFloat (1 # 2)%Q;
         _ENSURE_CORRECT_CACHE_SIZING := None;
         os_environ := env;
         heap := ∅ |}
  end.

(** [{"caches": cc}] *)
Definition caches (cc : list (string * pyval)) : list (string * pyval) :=
  [("caches", PyDict cc)].

(** The state after the operations [ops]. *)
Definition after (ops : list op) (s : state) : state := fst (run ops s).

Definition environment : list (string * string) :=
  [("SYNAPSE_CACHE_FACTOR_GET_USERS", "5");
   ("SYNAPSE_CACHE_FACTOR_OTHER", "5");
   ("HOME", "/root")].

(** Three caches registered before any load. *)
Definition three_caches : state :=
  after [Register "Get_Users" 7; Register "other" 8; Register "plain" 9]
    (fresh environment).

(** [per_cache_factors = {"Get_Users": 2}], with [..._GET_USERS=5] in the
    environment. *)
Definition file_over_env : list (string * pyval) :=
  caches [("per_cache_factors", PyDict [("Get_Users", PyInt 2)])].

Definition file_over_env_calls : list call :=
  [Resize "get_users" 7 (PyInt 2);
   Resize "other" 8 (PyFloat (inject_Z 5));
   Resize "plain" 9 (PyFloat (1 # 2)%Q)].

(** [per_cache_factors = [1, 2, 3]] after [global_factor = 4]. *)
Definition sequence_factors : list (string * pyval) :=
  caches [("global_factor", PyInt 4);
          ("per_cache_factors", PyList [PyInt 1; PyInt 2; PyInt 3])].

(** [per_cache_factors = []] *)
Definition empty_sequence_factors : list (string * pyval) :=
  caches [("per_cache_factors", PyList [])].

(** [global_factor = "fast"] *)
Definition fast : list (string * pyval) :=
  caches [("global_factor", PyStr "fast")].

(** [global_factor = 2] *)
Definition two : list (string * pyval) :=
  caches [("global_factor", PyInt 2)].

(** [per_cache_factors = {"a": "x"}] *)
Definition bad_entry : list (string * pyval) :=
  caches [("per_cache_factors", PyDict [("ok", PyInt 1); ("A", PyStr "x")])].

(** [global_factor = "fast"] and [per_cache_factors = {"a": "x"}] *)
Definition fast_and_bad_entry : list (string * pyval) :=
  caches [("global_factor", PyStr "fast");
          ("per_cache_factors", PyDict [("a", PyStr "x")])].

(** [per_cache_factors = {"Foo": 2, "foo": 3}] *)
Definition colliding : list (string * pyval) :=
  caches [("per_cache_factors", PyDict [("Foo", PyInt 2); ("foo", PyInt 3)])].

(** [global_factor = True], [per_cache_factors = {"Get_Users": False}] *)
Definition booleans : list (string * pyval) :=
  caches [("global_factor", PyBool true);
          ("per_cache_factors", PyDict [("Get_Users", PyBool false)])].

(** The call a cache named [late], for which nothing is configured,
    receives under the default factor. *)
Definition late_call : list call := [Resize "late" 11 (PyFloat (1 # 2)%Q)].

(** What [environment] contributes to the per-cache factors. *)
Definition env_overrides : list (string * pyval) :=
  [("get_users", PyFloat (inject_Z 5)); ("other", PyFloat (inject_Z 5))].

(** Registrations, two failing loads and a reset, before any load that
    completes. *)
Definition early_ops : list op :=
  [Register "Get_Users" 7; Load 1 fast; Register "other" 8;
   Load 1 sequence_factors; Reset; Register "plain" 9].

(** The calls of a load of [two] on [three_caches]. *)
Definition two_calls : list call :=
  [Resize "get_users" 7 (PyFloat (inject_Z 5));
   Resize "other" 8 (PyFloat (inject_Z 5));
   Resize "plain" 9 (PyInt 2)].

(** An environment with an override that is not a number. *)
Definition malformed_environment : list (string * string) :=
  [("HOME", "/root"); ("SYNAPSE_CACHE_FACTOR_FOO", "abc")].

(** [{"caches": None}] *)
Definition null_caches : list (string * pyval) := [("caches", PyNone)].

(** [{"event_cache_size": "5K"}] *)
Definition no_caches : list (string * pyval) :=
  [("event_cache_size", PyStr "5K")].

(** [event_cache_size = "abc"] and [global_factor = "fast"] *)
Definition bad_size_and_fast : list (string * pyval) :=
  [("event_cache_size", PyStr "abc");
   ("caches", PyDict [("global_factor", PyStr "fast")])].


(** Registrations, loads and a reset after the import. *)
Definition busy_ops : list op :=
  [Register "Get_Users" 7; Load 1 two; Register "GET_USERS" 8;
   Load 1 fast; Register "late" 11].

End Demo.


(** ** Facts about strings and dictionaries *)

Lemma lower_ascii_idemp (c : ascii) :
  Str.lower_ascii (Str.lower_ascii c) = Str.lower_ascii c.
Proof. destruct c as [[] [] [] [] [] [] [] []]; reflexivity. Qed.

Lemma lower_idemp (s : string) : Str.lower (Str.lower s) = Str.lower s.
Proof.
  induction s as [|c s IH]; simpl; [reflexivity|].
  rewrite lower_ascii_idemp, IH. reflexivity.
Qed.

Section DictFacts.
Context {V : Type}.
Implicit Types (d : list (string * V)) (k : string) (v : V).

Lemma get_set_same d k v : Dict.get (Dict.set d k v) k = Some v.
Proof.
  induction d as [|[k' v'] d IH]; simpl.
  - rewrite String.eqb_refl. reflexivity.
  - destruct (String.eqb k' k) eqn:E; simpl; rewrite E; auto.
Qed.

Lemma get_set_other d k k' v :
  k <> k' -> Dict.get (Dict.set d k v) k' = Dict.get d k'.
Proof.
  intros Hne. induction d as [|[k0 v0] d IH]; simpl.
  - destruct (String.eqb_spec k k'); congruence.
  - destruct (String.eqb_spec k0 k) as [->|Hk]; simpl.
    + destruct (String.eqb_spec k k'); congruence.
    + rewrite IH. reflexivity.
Qed.

Lemma keys_set d k v k' :
  k' ∈ Dict.keys (Dict.set d k v) <-> k' = k \/ k' ∈ Dict.keys d.
Proof.
  unfold Dict.keys. induction d as [|[k0 v0] d IH]; simpl.
  - rewrite list_elem_of_singleton, elem_of_nil. tauto.
  - destruct (String.eqb_spec k0 k) as [->|Hk]; simpl.
    + rewrite !elem_of_cons. tauto.
    + rewrite !elem_of_cons, IH. tauto.
Qed.

Lemma keys_set_NoDup d k v :
  NoDup (Dict.keys d) -> NoDup (Dict.keys (Dict.set d k v)).
Proof.
  induction d as [|[k0 v0] d IH]; simpl; intros Hnd.
  - apply NoDup_singleton.
  - apply NoDup_cons in Hnd as [Hnot Hnd].
    destruct (String.eqb_spec k0 k) as [->|Hk]; simpl.
    + apply NoDup_cons. auto.
    + apply NoDup_cons. split; [|auto].
      change (k0 ∉ Dict.keys (Dict.set d k v)).
      rewrite keys_set. intros [?|?]; congruence.
Qed.

Lemma get_None d k : Dict.get d k = None <-> k ∉ Dict.keys d.
Proof.
  unfold Dict.keys. induction d as [|[k0 v0] d IH]; simpl.
  - split; [intros _; apply not_elem_of_nil | reflexivity].
  - rewrite not_elem_of_cons.
    destruct (String.eqb_spec k0 k) as [->|Hk].
    + split; [discriminate | intros [? _]; congruence].
    + rewrite IH. split; [intros ?; split; congruence | tauto].
Qed.

Lemma get_Some_elem d k v : Dict.get d k = Some v -> (k, v) ∈ d.
Proof.
  induction d as [|[k0 v0] d IH]; simpl; [discriminate|].
  destruct (String.eqb_spec k0 k) as [->|Hk].
  - intros [= ->]. apply elem_of_cons. auto.
  - intros Hg. apply elem_of_cons. auto.
Qed.

Lemma elem_get_Some d k v :
  NoDup (Dict.keys d) -> (k, v) ∈ d -> Dict.get d k = Some v.
Proof.
  induction d as [|[k0 v0] d IH]; simpl; intros Hnd Hin.
  - apply elem_of_nil in Hin. contradiction.
  - apply NoDup_cons in Hnd as [Hnot Hnd].
    apply elem_of_cons in Hin as [[= -> ->]|Hin].
    + rewrite String.eqb_refl. reflexivity.
    + destruct (String.eqb_spec k0 k) as [->|Hk]; [|auto].
      exfalso. apply Hnot. apply list_elem_of_fmap. exists (k, v). auto.
Qed.

Lemma update_NoDup d other :
  NoDup (Dict.keys d) -> NoDup (Dict.keys (Dict.update d other)).
Proof.
  unfold Dict.update. revert d.
  induction other as [|[k v] o IH]; simpl; intros d Hnd; [exact Hnd|].
  apply IH, keys_set_NoDup, Hnd.
Qed.

End DictFacts.

(** ** Running the module *)

Section Exec.
Context `{Host} `{!Base}.
Implicit Types (s : state) (self o : obj) (c : CacheConfig).

Lemma deref_store_same self f s : deref self (store self f s) = f (deref self s).
Proof. unfold store, deref at 1. simpl. rewrite lookup_insert_eq. reflexivity. Qed.

Lemma deref_store_other self o f s :
  o <> self -> deref o (store self f s) = deref o s.
Proof.
  intros Hne. unfold store, deref. simpl.
  rewrite lookup_insert_ne by congruence. reflexivity.
Qed.

Lemma store_store self f g s :
  store self f (store self g s) = store self (fun c => f (g c)) s.
Proof.
  unfold store at 1. rewrite deref_store_same.
  unfold store. simpl. rewrite insert_insert_eq. reflexivity.
Qed.

Lemma store_id self f s c :
  heap s !! self = Some c -> f c = c -> store self f s = s.
Proof.
  intros Hl Hf. unfold store, deref. rewrite Hl, Hf.
  rewrite insert_id by exact Hl. destruct s; reflexivity.
Qed.

Lemma environ_of_store self o f s :
  (forall c, _environ (f c) = _environ c) ->
  environ_of o (store self f s) = environ_of o s.
Proof.
  intros Hf. unfold environ_of.
  destruct (decide (o = self)) as [->|Hne].
  - rewrite deref_store_same, Hf. reflexivity.
  - rewrite deref_store_other by exact Hne. reflexivity.
Qed.

(** [read_config] in direct style: the states it goes through and the
    place of each [raise]. *)
Lemma read_config_eq self config s :
  read_config self config s =
  match parse_size (Dict.get_default config "event_cache_size" (PyStr "10K")) with
  | None => (Raise SizeError, s, [])
  | Some size =>
      let s1 := store self (with_event_cache_size size) s in
      match Dict.get_default config "caches" (PyDict []) with
      | PyDict cc =>
          let gf :=
            Dict.get_default cc "global_factor" (DEFAULT_CACHE_SIZE_FACTOR s) in
          let s2 := store self (with_global_factor gf) s1 in
          if is_number gf then
            let s3 := with_DEFAULT gf s2 in
            match env_factors (environ_of self s) [] with
            | Raise e => (Raise e, s3, [])
            | Ok envd =>
                match py_or (Dict.get_default cc "per_cache_factors" (PyDict []))
                        (PyDict []) with
                | PyDict d =>
                    match for_each (Dict.update envd d) (check_and_store self)
                            (store self (with_cache_factors []) s3) with
                    | (Ok _, s5, t5) =>
                        match ensure_cache_sizes self
                                (with_ENSURE (Some self) s5) with
                        | (r, s6, t6) => (r, s6, t5 ++ t6)
                        end
                    | (Raise e, s5, t5) => (Raise e, s5, t5)
                    end
                | _ => (Raise (ConfigError msg_not_a_dict), s3, [])
                end
            end
          else (Raise (ConfigError msg_global_factor), s2, [])
      | _ => (Raise AttributeError, s1, [])
      end
  end.
Proof.
  unfold read_config, bind, lift, setattr, modify, gets, ret, raise.
  destruct (parse_size _) as [size|]; [|reflexivity].
  destruct (Dict.get_default config "caches" (PyDict [])) as [| | | | | |cc];
    try reflexivity.
  simpl.
  destruct (is_number _) eqn:Hn; simpl; [|reflexivity].
  assert (environ_of self
            (with_DEFAULT
               (Dict.get_default cc "global_factor" (DEFAULT_CACHE_SIZE_FACTOR s))
               (store self
                  (with_global_factor
                     (Dict.get_default cc "global_factor"
                        (DEFAULT_CACHE_SIZE_FACTOR s)))
                  (store self (with_event_cache_size size) s)))
          = environ_of self s) as ->.
  { unfold environ_of. simpl.
    change (deref self (with_DEFAULT ?v ?x)) with (deref self x).
    rewrite !deref_store_same. reflexivity. }
  destruct (env_factors _ _) as [envd|e]; simpl; [|reflexivity].
  destruct (py_or _ _) as [| | | | | |d]; try reflexivity.
  destruct (for_each _ _ _) as [[[[]|e] s5] t5]; simpl; [|reflexivity].
  destruct (ensure_cache_sizes _ _) as [[r s6] t6]. reflexivity.
Qed.

Lemma with_cache_factors_same c d :
  cache_factors c = Some d -> with_cache_factors d c = c.
Proof. destruct c as [? ? cf ?]. simpl. intros ->. reflexivity. Qed.

(** The validation loop on items that are all numbers: the object ends with
    the normalised mapping. *)
Lemma store_loop_ok self items : forall s c d0,
  heap s !! self = Some c -> cache_factors c = Some d0 ->
  Forall numeric items ->
  for_each items (check_and_store self) s =
  (Ok tt,
   with_heap (<[self := with_cache_factors (normalised items d0) c]> (heap s)) s,
   []).
Proof.
  induction items as [|[k v] items IH]; intros s c d0 Hl Hc Hall; simpl.
  - unfold ret. f_equal. f_equal. unfold normalised. simpl.
    rewrite (with_cache_factors_same c d0 Hc), (insert_id _ _ _ Hl).
    destruct s; reflexivity.
  - apply Forall_cons in Hall as [Hv Hall]. unfold numeric in Hv. simpl in Hv.
    unfold bind, check_and_store at 1. simpl. rewrite Hv. simpl.
    unfold setitem_cache_factors, getattr, bind, gets, lift, setattr, modify.
    unfold deref at 1. rewrite Hl, Hc. simpl.
    rewrite (IH (store self (with_cache_factors (Dict.set d0 (Str.lower k) v)) s)
               (with_cache_factors (Dict.set d0 (Str.lower k) v) c)
               (Dict.set d0 (Str.lower k) v)); [| |reflexivity|exact Hall].
    + unfold store, deref. rewrite Hl. simpl.
      rewrite insert_insert_eq. reflexivity.
    + unfold store, deref. rewrite Hl. simpl. apply lookup_insert_eq.
Qed.

(** The validation loop stops at the first value that is not a number; the
    entries before it are already stored. *)
Lemma store_loop_raise self pre k v post : forall s c d0,
  heap s !! self = Some c -> cache_factors c = Some d0 ->
  Forall numeric pre -> is_number v = false ->
  for_each (pre ++ (k, v) :: post) (check_and_store self) s =
  (Raise (ConfigError (msg_per_cache (Str.lower k))),
   with_heap (<[self := with_cache_factors (normalised pre d0) c]> (heap s)) s,
   []).
Proof.
  induction pre as [|[k1 v1] pre IH]; intros s c d0 Hl Hc Hall Hv; simpl.
  - unfold bind, check_and_store. simpl. rewrite Hv. simpl. unfold raise.
    f_equal. f_equal. unfold normalised. simpl.
    rewrite (with_cache_factors_same c d0 Hc), (insert_id _ _ _ Hl).
    destruct s; reflexivity.
  - apply Forall_cons in Hall as [Hv1 Hall]. unfold numeric in Hv1. simpl in Hv1.
    unfold bind, check_and_store at 1. simpl. rewrite Hv1. simpl.
    unfold setitem_cache_factors, getattr, bind, gets, lift, setattr, modify.
    unfold deref at 1. rewrite Hl, Hc. simpl.
    rewrite (IH (store self (with_cache_factors (Dict.set d0 (Str.lower k1) v1)) s)
               (with_cache_factors (Dict.set d0 (Str.lower k1) v1) c)
               (Dict.set d0 (Str.lower k1) v1)); [| |reflexivity|exact Hall|exact Hv].
    + unfold store, deref. rewrite Hl. simpl.
      rewrite insert_insert_eq. reflexivity.
    + unfold store, deref. rewrite Hl. simpl. apply lookup_insert_eq.
Qed.

(** Either every value is a number, or there is a first one that is not. *)
Lemma first_not_numeric (items : list (string * pyval)) :
  Forall numeric items \/
  exists pre k v post,
    items = pre ++ (k, v) :: post /\ Forall numeric pre /\ is_number v = false.
Proof.
  induction items as [|[k v] items IH].
  - left. constructor.
  - destruct (is_number v) eqn:Hv.
    + destruct IH as [IH|(pre & k' & v' & post & -> & Hpre & Hv')].
      * left. constructor; assumption.
      * right. exists ((k, v) :: pre), k', v', post.
        split; [reflexivity|]. split; [constructor; assumption|assumption].
    + right. exists [], k, v, items. split; [reflexivity|].
      split; [constructor|assumption].
Qed.

(** One run of the installed closure: one call per registry entry. *)
Lemma ensure_cache_sizes_eq self s m g :
  cache_factors (deref self s) = Some m ->
  global_factor (deref self s) = Some g ->
  ensure_cache_sizes self s = (Ok tt, s, resize_all m g (_CACHES s)).
Proof.
  intros Hm Hg. unfold ensure_cache_sizes, bind at 1, gets at 1.
  set (body := fun entry : string * callback => _).
  assert (Hbody : forall e,
    body e s = (Ok tt, s, [Resize (fst e) (snd e) (Dict.get_default m (fst e) g)])).
  { intros e. unfold body, bind, getattr, bind, gets, lift, emit.
    rewrite Hm. simpl. rewrite Hg. reflexivity. }
  assert (Hloop : forall reg,
    for_each reg body s = (Ok tt, s, resize_all m g reg)).
  { induction reg as [|e reg IH]; [reflexivity|].
    simpl. unfold bind. rewrite Hbody, IH. reflexivity. }
  rewrite Hloop. reflexivity.
Qed.

Lemma store_stage self f dflt ens c s :
  store self f (stage self dflt ens c s) = stage self dflt ens (f c) s.
Proof.
  unfold store, deref, stage, with_heap. simpl.
  rewrite lookup_insert_eq, insert_insert_eq. reflexivity.
Qed.

Lemma store_as_stage self f s :
  store self f s =
  stage self (DEFAULT_CACHE_SIZE_FACTOR s) (_ENSURE_CORRECT_CACHE_SIZING s)
    (f (deref self s)) s.
Proof. reflexivity. Qed.

Lemma deref_stage_same self dflt ens c s : deref self (stage self dflt ens c s) = c.
Proof. unfold deref, stage. simpl. rewrite lookup_insert_eq. reflexivity. Qed.

Lemma deref_stage_other self o dflt ens c s :
  o <> self -> deref o (stage self dflt ens c s) = deref o s.
Proof.
  intros Hne. unfold deref, stage. simpl.
  rewrite lookup_insert_ne by congruence. reflexivity.
Qed.

(** Every run of [read_config] is one of the seven outcomes. *)
Lemma read_config_outcome self config s :
  outcome self config s (read_config self config s).
Proof.
  rewrite read_config_eq.
  destruct (parse_size _) as [size|] eqn:Hsize; [|apply out_size; exact Hsize].
  destruct (Dict.get_default config "caches" (PyDict [])) as [| | | | | |cc] eqn:Hcc;
    simpl; try (rewrite store_as_stage; apply out_attribute;
                [exact Hsize | unfold cache_config; rewrite Hcc; reflexivity]).
  rewrite (store_as_stage self (with_event_cache_size size) s), store_stage.
  fold (resolved_global cc s). fold (sized self size (resolved_global cc s) s).
  destruct (is_number (resolved_global cc s)) eqn:Hg;
    [|apply (out_global self config s size cc); assumption].
  change (with_DEFAULT (resolved_global cc s)
            (stage self (DEFAULT_CACHE_SIZE_FACTOR s)
               (_ENSURE_CORRECT_CACHE_SIZING s)
               (sized self size (resolved_global cc s) s) s))
    with (stage self (resolved_global cc s) (_ENSURE_CORRECT_CACHE_SIZING s)
            (sized self size (resolved_global cc s) s) s).
  destruct (env_factors _ _) as [envd|e] eqn:Henv;
    [|apply (out_environ self config s size cc e); assumption].
  fold (individual_factors_config cc).
  destruct (individual_factors_config cc) as [| | | | | |d] eqn:Hd;
    try (apply (out_not_a_dict self config s size cc envd);
         [assumption..|rewrite Hd; reflexivity]).
  rewrite store_stage.
  set (c1 := with_cache_factors [] (sized self size (resolved_global cc s) s)).
  set (s4 := stage self (resolved_global cc s) (_ENSURE_CORRECT_CACHE_SIZING s) c1 s).
  assert (Hl : heap s4 !! self = Some c1) by apply lookup_insert_eq.
  assert (Hc : cache_factors c1 = Some []) by reflexivity.
  assert (Hins : forall m,
    with_heap (<[self := with_cache_factors m c1]> (heap s4)) s4 =
    stage self (resolved_global cc s) (_ENSURE_CORRECT_CACHE_SIZING s)
      (with_cache_factors m (sized self size (resolved_global cc s) s)) s).
  { intros m. unfold s4, stage, with_heap. simpl.
    rewrite insert_insert_eq. reflexivity. }
  destruct (first_not_numeric (Dict.update envd d))
    as [Hall|(pre & k & v & post & Hsplit & Hpre & Hv)].
  - rewrite (store_loop_ok self _ s4 c1 [] Hl Hc Hall), Hins.
    erewrite ensure_cache_sizes_eq.
    + simpl. apply (out_loaded self config s size cc envd d); assumption.
    + change (with_ENSURE ?e (stage self ?a ?b ?c ?s0)) with (stage self a e c s0).
      rewrite deref_stage_same. reflexivity.
    + change (with_ENSURE ?e (stage self ?a ?b ?c ?s0)) with (stage self a e c s0).
      rewrite deref_stage_same. reflexivity.
  - rewrite Hsplit.
    rewrite (store_loop_raise self pre k v post s4 c1 [] Hl Hc Hpre Hv), Hins.
    apply (out_per_cache self config s size cc envd d pre k v post); assumption.
Qed.

End Exec.

(** ** Merging the environment and the file configuration *)

Section Merge.
Context `{Host}.
Implicit Types (M d items : list (string * pyval)) (n k : string) (v : pyval).

Lemma get_normalised n items : forall acc,
  Dict.get (normalised items acc) n = resolve n items (Dict.get acc n).
Proof.
  unfold normalised, resolve.
  induction items as [|[k v] items IH]; intros acc; simpl; [reflexivity|].
  rewrite IH. f_equal.
  destruct (String.eqb_spec (Str.lower k) n) as [<-|Hne].
  - apply get_set_same.
  - apply get_set_other. exact Hne.
Qed.

Lemma resolve_app n l1 l2 init :
  resolve n (l1 ++ l2) init = resolve n l2 (resolve n l1 init).
Proof. unfold resolve. apply fold_left_app. Qed.

Lemma resolve_cons n k v items init :
  resolve n ((k, v) :: items) init =
  resolve n items (if String.eqb (Str.lower k) n then Some v else init).
Proof. reflexivity. Qed.

Lemma resolve_none n items init :
  (forall k v, (k, v) ∈ items -> Str.lower k <> n) ->
  resolve n items init = init.
Proof.
  revert init. induction items as [|[k v] items IH]; intros init Hno;
    [reflexivity|].
  rewrite resolve_cons.
  destruct (String.eqb_spec (Str.lower k) n) as [Heq|_].
  - exfalso. apply (Hno k v); [apply elem_of_cons; auto | exact Heq].
  - apply IH. intros k' v' Hin. apply (Hno k' v'). apply elem_of_cons. auto.
Qed.

Lemma resolve_in P n items : forall init,
  (forall k v, (k, v) ∈ items -> Str.lower k = n -> P v) ->
  resolve n items init = init \/
  exists x, resolve n items init = Some x /\ P x.
Proof.
  induction items as [|[k v] items IH]; intros init HP; [left; reflexivity|].
  rewrite resolve_cons.
  assert (HP' : forall k' v', (k', v') ∈ items -> Str.lower k' = n -> P v').
  { intros k' v' Hin. apply HP. apply elem_of_cons. auto. }
  destruct (String.eqb_spec (Str.lower k) n) as [Heq|_].
  - right. destruct (IH (Some v) HP') as [->|Hx]; [|exact Hx].
    exists v. split; [reflexivity|]. apply (HP k v); [apply elem_of_cons|]; auto.
  - apply IH, HP'.
Qed.

Lemma resolve_settled P n items : forall init,
  (forall k v, (k, v) ∈ items -> Str.lower k = n -> P v) ->
  (exists k v, (k, v) ∈ items /\ Str.lower k = n) ->
  exists x, resolve n items init = Some x /\ P x.
Proof.
  induction items as [|[k v] items IH]; intros init HP (k0 & v0 & Hin & Hk0).
  - apply elem_of_nil in Hin. contradiction.
  - assert (HP' : forall k' v', (k', v') ∈ items -> Str.lower k' = n -> P v').
    { intros k' v' Hin'. apply HP. apply elem_of_cons. auto. }
    rewrite resolve_cons.
    destruct (String.eqb_spec (Str.lower k) n) as [Heq|Hne].
    + destruct (resolve_in P n items (Some v) HP') as [->|Hx]; [|exact Hx].
      exists v. split; [reflexivity|]. apply (HP k v); [apply elem_of_cons|]; auto.
    + apply IH; [exact HP'|].
      apply elem_of_cons in Hin as [[= -> ->]|Hin]; [congruence|].
      exists k0, v0. auto.
Qed.

Lemma settled_resolve P n M :
  settled P n M -> exists x, resolve n M None = Some x /\ P x.
Proof.
  intros (pre & post & -> & HP & Hex). rewrite resolve_app.
  apply resolve_settled; assumption.
Qed.

Lemma elem_of_set M k v k' v' :
  (k', v') ∈ Dict.set M k v -> (k' = k /\ v' = v) \/ (k', v') ∈ M.
Proof.
  induction M as [|[k0 v0] M IH]; simpl.
  - intros Hin. apply list_elem_of_singleton in Hin as [= -> ->]. auto.
  - destruct (String.eqb_spec k0 k) as [->|Hne]; rewrite !elem_of_cons.
    + intros [[= -> ->]|Hin]; auto.
    + intros [Heq|Hin]; [auto|]. destruct (IH Hin); auto.
Qed.

Lemma set_app_l pre post k v :
  k ∈ Dict.keys pre -> Dict.set (pre ++ post) k v = Dict.set pre k v ++ post.
Proof.
  unfold Dict.keys. induction pre as [|[k0 v0] pre IH]; simpl; intros Hin.
  - apply elem_of_nil in Hin. contradiction.
  - destruct (String.eqb_spec k0 k) as [->|Hne]; [reflexivity|].
    apply elem_of_cons in Hin as [Heq|Hin]; [congruence|].
    rewrite IH by exact Hin. reflexivity.
Qed.

Lemma set_app_r pre post k v :
  k ∉ Dict.keys pre -> Dict.set (pre ++ post) k v = pre ++ Dict.set post k v.
Proof.
  unfold Dict.keys. induction pre as [|[k0 v0] pre IH]; simpl; intros Hin;
    [reflexivity|].
  apply not_elem_of_cons in Hin as [Hne Hin].
  destruct (String.eqb_spec k0 k) as [->|_]; [congruence|].
  rewrite IH by exact Hin. reflexivity.
Qed.

Lemma key_of_elem M k v : (k, v) ∈ M -> k ∈ Dict.keys M.
Proof. intros Hin. apply list_elem_of_fmap. exists (k, v). auto. Qed.

Lemma elem_of_key M k : k ∈ Dict.keys M -> exists v, (k, v) ∈ M.
Proof.
  intros Hin. apply list_elem_of_fmap in Hin as ([k' v] & -> & Hin). eauto.
Qed.

(** Writing an entry that is in [P] when it is for [n] keeps [M] settled. *)
Lemma settled_set P n M k v :
  settled P n M -> (Str.lower k = n -> P v) -> settled P n (Dict.set M k v).
Proof.
  intros (pre & post & -> & HP & (k0 & v0 & Hin0 & Hk0)) Hv.
  destruct (decide (k ∈ Dict.keys pre)) as [Hin|Hnot].
  - exists (Dict.set pre k v), post. rewrite set_app_l by exact Hin.
    split; [reflexivity|]. split; [exact HP|]. exists k0, v0. auto.
  - exists pre, (Dict.set post k v). rewrite set_app_r by exact Hnot.
    split; [reflexivity|]. split.
    + intros k' v' Hin' Hk'. apply elem_of_set in Hin' as [[-> ->]|Hin'].
      * apply Hv, Hk'.
      * apply (HP k' v'); assumption.
    + apply key_of_elem in Hin0. 
      assert (Hk : k0 ∈ Dict.keys (Dict.set post k v)).
      { apply keys_set. auto. }
      apply elem_of_key in Hk as [v1 Hv1]. exists k0, v1. auto.
Qed.

(** Writing an entry for [n] into a plain [M] settles it. *)
Lemma plain_set_settles (P : pyval -> Prop) n M k v :
  plain n M -> Str.lower k = n -> P v -> settled P n (Dict.set M k v).
Proof.
  intros [Hnd Hplain] Hk Hv.
  destruct (decide (k ∈ Dict.keys M)) as [Hin|Hnot].
  - exists [], (Dict.set M k v). split; [reflexivity|].
    assert (k = n) as -> by (apply Hplain; assumption).
    split.
    + intros k' v' Hin' Hk'.
      assert (k' = n) as ->.
      { apply key_of_elem, keys_set in Hin'. destruct Hin' as [?|Hin']; [auto|].
        apply Hplain; assumption. }
      apply (elem_get_Some _ _ _ (keys_set_NoDup M n v Hnd)) in Hin'.
      rewrite get_set_same in Hin'. congruence.
    + exists n, v. split; [|exact Hk].
      apply get_Some_elem, get_set_same.
  - exists M, [(k, v)]. replace M with (M ++ []) at 1 by apply app_nil_r.
    rewrite set_app_r by exact Hnot. split; [reflexivity|]. split.
    + intros k' v' Hin' _. apply list_elem_of_singleton in Hin' as [= -> ->].
      exact Hv.
    + exists k, v. split; [apply list_elem_of_singleton; reflexivity | exact Hk].
Qed.

Lemma plain_set_other n M k v :
  plain n M -> Str.lower k <> n -> plain n (Dict.set M k v).
Proof.
  intros [Hnd Hplain] Hk. split; [apply keys_set_NoDup, Hnd|].
  intros k' Hin Hk'. apply keys_set in Hin as [->|Hin]; [congruence|].
  apply Hplain; assumption.
Qed.

Lemma settled_update P n d : forall M,
  settled P n M ->
  (forall k v, (k, v) ∈ d -> Str.lower k = n -> P v) ->
  settled P n (Dict.update M d).
Proof.
  unfold Dict.update.
  induction d as [|[k v] d IH]; intros M HM HP; simpl; [exact HM|].
  apply IH.
  - apply settled_set; [exact HM|]. apply HP, elem_of_cons. auto.
  - intros k' v' Hin. apply HP, elem_of_cons. auto.
Qed.

Lemma plain_update_settles P n d : forall M,
  plain n M ->
  (forall k v, (k, v) ∈ d -> Str.lower k = n -> P v) ->
  (exists k v, (k, v) ∈ d /\ Str.lower k = n) ->
  settled P n (Dict.update M d).
Proof.
  induction d as [|[k v] d IH]; intros M HM HP (k0 & v0 & Hin0 & Hk0).
  - apply elem_of_nil in Hin0. contradiction.
  - assert (HP' : forall k' v', (k', v') ∈ d -> Str.lower k' = n -> P v').
    { intros k' v' Hin. apply HP, elem_of_cons. auto. }
    change (Dict.update M ((k, v) :: d)) with (Dict.update (Dict.set M k v) d).
    destruct (String.eqb_spec (Str.lower k) n) as [Heq|Hne].
    + apply settled_update; [|exact HP'].
      apply plain_set_settles; [exact HM | exact Heq |].
      apply (HP k v); [apply elem_of_cons|]; auto.
    + apply IH; [apply plain_set_other; assumption | exact HP' |].
      apply elem_of_cons in Hin0 as [[= -> ->]|Hin0]; [congruence|].
      exists k0, v0. auto.
Qed.

(** Keys of the merged dictionary come from one of the two sources. *)
Lemma keys_update d : forall M k,
  k ∈ Dict.keys (Dict.update M d) -> k ∈ Dict.keys M \/ k ∈ Dict.keys d.
Proof.
  unfold Dict.update.
  induction d as [|[k0 v0] d IH]; intros M k Hin; simpl in *; [auto|].
  apply IH in Hin as [Hin|Hin].
  - apply keys_set in Hin as [->|Hin]; [right; apply elem_of_cons|]; auto.
  - right. apply elem_of_cons. auto.
Qed.

Lemma env_factors_cons key val (vars : list (string * string)) acc :
  env_factors ((key, val) :: vars) acc =
  if is_override key then
    match float_of_str val with
    | Some f => env_factors vars (Dict.set acc (env_name key) (PyFloat f))
    | None => Raise ValueError
    end
  else env_factors vars acc.
Proof. reflexivity. Qed.

Lemma env_factors_keys (vars : list (string * string)) : forall acc envd,
  env_factors vars acc = Ok envd ->
  NoDup (Dict.keys acc) ->
  NoDup (Dict.keys envd) /\
  forall k, k ∈ Dict.keys envd ->
    k ∈ Dict.keys acc \/
    exists key val, (key, val) ∈ vars /\ is_override key = true /\ k = env_name key.
Proof.
  induction vars as [|[key val] vars IH]; intros acc envd Henv Hnd.
  - injection Henv as <-. auto.
  - rewrite env_factors_cons in Henv. destruct (is_override key) eqn:Hov.
    + destruct (float_of_str val) as [f|]; [|discriminate].
      apply IH in Henv as [Hnd' Hkeys]; [|apply keys_set_NoDup, Hnd].
      split; [exact Hnd'|]. intros k Hin.
      destruct (Hkeys k Hin) as [Hk|(key' & val' & Hin' & Hov' & ->)].
      * apply keys_set in Hk as [->|Hk]; [|auto].
        right. exists key, val. split; [apply elem_of_cons; auto|]. auto.
      * right. exists key', val'. split; [apply elem_of_cons; auto|]. auto.
    + apply IH in Henv as [Hnd' Hkeys]; [|exact Hnd].
      split; [exact Hnd'|]. intros k Hin.
      destruct (Hkeys k Hin) as [Hk|(key' & val' & Hin' & Hov' & ->)]; [auto|].
      right. exists key', val'. split; [apply elem_of_cons; auto|]. auto.
Qed.

Lemma env_factors_plain environ envd n :
  env_factors environ [] = Ok envd -> plain n envd.
Proof.
  intros Henv. apply env_factors_keys in Henv as [Hnd Hkeys]; [|constructor].
  split; [exact Hnd|]. intros k Hin Hk.
  destruct (Hkeys k Hin) as [Hk'|(key & val & _ & _ & ->)].
  - apply elem_of_nil in Hk'. contradiction.
  - unfold env_name in *. rewrite lower_idemp in Hk. exact Hk.
Qed.

(** File entries beat the environment: when the file configuration has an
    entry for [n], the value stored for [n] is the one of a file entry. *)
Lemma file_wins (P : pyval -> Prop) environ envd d n :
  env_factors environ [] = Ok envd ->
  (forall k v, (k, v) ∈ d -> Str.lower k = n -> P v) ->
  (exists k v, (k, v) ∈ d /\ Str.lower k = n) ->
  exists x, Dict.get (normalised (Dict.update envd d) []) n = Some x /\ P x.
Proof.
  intros Henv HP Hex. rewrite get_normalised. simpl.
  apply settled_resolve, plain_update_settles; [|assumption..].
  eapply env_factors_plain, Henv.
Qed.

(** No source names [n]: nothing is stored for it. *)
Lemma no_override_get environ envd d n :
  env_factors environ [] = Ok envd ->
  (forall k, k ∈ Dict.keys d -> Str.lower k <> n) ->
  (forall key val, (key, val) ∈ environ -> is_override key = true ->
     env_name key <> n) ->
  Dict.get (normalised (Dict.update envd d) []) n = None.
Proof.
  intros Henv Hd He. rewrite get_normalised. simpl. apply resolve_none.
  intros k v Hin Hk. apply key_of_elem, keys_update in Hin as [Hin|Hin].
  - apply env_factors_keys in Henv as [_ Hkeys]; [|constructor].
    destruct (Hkeys k Hin) as [Hk'|(key & val & Hin' & Hov & ->)].
    + apply elem_of_nil in Hk'. contradiction.
    + apply (He key val Hin' Hov). unfold env_name in *.
      rewrite lower_idemp in Hk. exact Hk.
  - apply (Hd k Hin Hk).
Qed.

End Merge.

(** ** Registrations, resets and sequences of operations *)

Section History.
Context `{Host} `{!Base}.
Implicit Types (s : state) (self o : obj) (ops : list op).

Lemma add_resizable_cache_absent n cb s :
  _ENSURE_CORRECT_CACHE_SIZING s = None ->
  add_resizable_cache n cb s =
  (Ok tt, with_CACHES (Dict.set (_CACHES s) (Str.lower n) cb) s, []).
Proof.
  intros Hens. unfold add_resizable_cache, bind, modify, gets. simpl.
  rewrite Hens. reflexivity.
Qed.

Lemma add_resizable_cache_installed n cb s self m g :
  installed self m g s ->
  add_resizable_cache n cb s =
  (Ok tt, with_CACHES (Dict.set (_CACHES s) (Str.lower n) cb) s,
   resize_all m g (Dict.set (_CACHES s) (Str.lower n) cb)).
Proof.
  intros (Hens & Hm & Hg). unfold add_resizable_cache, bind, modify, gets. simpl.
  rewrite Hens.
  rewrite (ensure_cache_sizes_eq self _ m g); [reflexivity|exact Hm|exact Hg].
Qed.

Lemma _reset_ok s f :
  default_factor_from (os_environ s) = Ok f ->
  _reset s =
  (Ok tt,
   {| _CACHES := []; DEFAULT_CACHE_SIZE_FACTOR := PyFloat f;
      _ENSURE_CORRECT_CACHE_SIZING := None;
      os_environ := os_environ s; heap := heap s |},
   []).
Proof.
  intros Hf. unfold _reset, bind, gets, of_result, modify. rewrite Hf. reflexivity.
Qed.

Lemma _reset_raise s e :
  default_factor_from (os_environ s) = Raise e -> _reset s = (Raise e, s, []).
Proof.
  intros Hf. unfold _reset, bind, gets, of_result, modify. rewrite Hf. reflexivity.
Qed.

(** What every run of [read_config] leaves untouched. *)
Lemma read_config_frame self config s r s' t :
  read_config self config s = (r, s', t) ->
  _CACHES s' = _CACHES s /\ os_environ s' = os_environ s /\
  forall o, o <> self -> deref o s' = deref o s.
Proof.
  intros Hrun. pose proof (read_config_outcome self config s) as Ho.
  rewrite Hrun in Ho.
  inversion Ho; subst; (split; [reflexivity|]); (split; [reflexivity|]);
    intros o Hne; try reflexivity; apply deref_stage_other; exact Hne.
Qed.

(** A run of [read_config] that raises calls nothing and leaves the
    installed closure in place. *)
Lemma read_config_raise self config s e s' t :
  read_config self config s = (Raise e, s', t) ->
  t = [] /\
  _ENSURE_CORRECT_CACHE_SIZING s' = _ENSURE_CORRECT_CACHE_SIZING s.
Proof.
  intros Hrun. pose proof (read_config_outcome self config s) as Ho.
  rewrite Hrun in Ho. inversion Ho; subst; split; reflexivity.
Qed.

(** Attributes once assigned stay assigned, whatever the outcome. *)
Lemma read_config_keeps_attributes self config s r s' t o m g :
  read_config self config s = (r, s', t) ->
  cache_factors (deref o s) = Some m ->
  global_factor (deref o s) = Some g ->
  exists m' g', cache_factors (deref o s') = Some m' /\
                global_factor (deref o s') = Some g'.
Proof.
  intros Hrun Hm Hg. destruct (decide (o = self)) as [->|Hne].
  - pose proof (read_config_outcome self config s) as Ho.
    rewrite Hrun in Ho.
    inversion Ho; subst; rewrite ?deref_stage_same; simpl; eauto.
  - destruct (read_config_frame _ _ _ _ _ _ Hrun) as (_ & _ & Hother).
    rewrite (Hother o Hne). eauto.
Qed.

Lemma read_config_ok_installs self config s s' t :
  read_config self config s = (Ok tt, s', t) ->
  exists m g, installed self m g s'.
Proof.
  intros Hrun. pose proof (read_config_outcome self config s) as Ho.
  rewrite Hrun in Ho. inversion Ho; subst.
  eexists _, _. split; [reflexivity|].
  rewrite deref_stage_same. split; reflexivity.
Qed.

Lemma consistent_perform (act : op) s r s' t :
  consistent s -> perform act s = (r, s', t) -> consistent s'.
Proof.
  intros [Hnd Hattr] Hrun. destruct act as [n cb|self config|]; simpl in Hrun.
  - destruct (_ENSURE_CORRECT_CACHE_SIZING s) as [self|] eqn:Hens.
    + destruct (Hattr self eq_refl) as (m & g & Hm & Hg).
      rewrite (add_resizable_cache_installed n cb s self m g) in Hrun
        by (split; auto).
      injection Hrun as <- <- <-. split; [apply keys_set_NoDup, Hnd|].
      intros o Ho. simpl in Ho. rewrite Hens in Ho. exact (Hattr o Ho).
    + rewrite add_resizable_cache_absent in Hrun by exact Hens.
      injection Hrun as <- <- <-. split; [apply keys_set_NoDup, Hnd|].
      intros o Ho. simpl in Ho. congruence.
  - destruct (read_config_frame _ _ _ _ _ _ Hrun) as (Hreg & _ & _).
    split; [rewrite Hreg; exact Hnd|]. intros o Hens.
    destruct r as [[]|e].
    + destruct (read_config_ok_installs _ _ _ _ _ Hrun) as (m & g & He & Hm & Hg).
      assert (o = self) as -> by congruence. eauto.
    + destruct (read_config_raise _ _ _ _ _ _ Hrun) as [_ Hsame].
      rewrite Hsame in Hens. destruct (Hattr o Hens) as (m & g & Hm & Hg).
      eapply read_config_keeps_attributes; eassumption.
  - destruct (default_factor_from (os_environ s)) as [f|e] eqn:Hf.
    + rewrite (_reset_ok s f Hf) in Hrun. injection Hrun as <- <- <-.
      split; [constructor|]. intros self Hens. discriminate.
    + rewrite (_reset_raise s e Hf) in Hrun. injection Hrun as <- <- <-.
      split; assumption.
Qed.

Lemma consistent_run ops : forall s s' t,
  consistent s -> run ops s = (s', t) -> consistent s'.
Proof.
  induction ops as [|act ops IH]; intros s s' t Hc Hrun; simpl in Hrun.
  - injection Hrun as <- <-. exact Hc.
  - destruct (perform act s) as [[r s1] t1] eqn:Hstep.
    destruct (run ops s1) as [s2 t2] eqn:Hrest.
    injection Hrun as <- <-.
    eapply IH; [|exact Hrest]. eapply consistent_perform; eassumption.
Qed.

Lemma consistent_import env h s : import_module env h = Ok s -> consistent s.
Proof.
  unfold import_module. destruct (default_factor_from env); [|discriminate].
  intros [= <-]. split; [constructor|]. intros self Hens. discriminate.
Qed.

(** Every state the module reaches from its import is consistent. *)
Lemma consistent_reachable env h s0 ops s t :
  import_module env h = Ok s0 -> run ops s0 = (s, t) -> consistent s.
Proof.
  intros Himp Hrun. eapply consistent_run; [|exact Hrun].
  eapply consistent_import, Himp.
Qed.

(** A loop whose body leaves the state alone leaves the state alone. *)
Lemma for_each_state {A} (body : A -> M unit) (l : list A) :
  (forall x s0, snd (fst (body x s0)) = s0) ->
  forall s, snd (fst (for_each l body s)) = s.
Proof.
  intros Hbody. induction l as [|x l IH]; intros s; [reflexivity|].
  simpl. unfold bind. specialize (Hbody x s).
  destruct (body x s) as [[[[]|e] s1] t1]; simpl in Hbody; subst s1.
  - specialize (IH s). destruct (for_each l body s) as [[r2 s2] t2]. exact IH.
  - reflexivity.
Qed.

(** The installed closure only calls callbacks. *)
Lemma ensure_cache_sizes_state self s :
  snd (fst (ensure_cache_sizes self s)) = s.
Proof.
  unfold ensure_cache_sizes, bind at 1, gets at 1.
  assert (Hloop : snd (fst (for_each (_CACHES s)
    (fun entry : string * callback =>
       bind (getattr self cache_factors) (fun cf =>
       bind (getattr self global_factor) (fun gf =>
       emit (Resize (fst entry) (snd entry)
               (Dict.get_default cf (fst entry) gf))))) s)) = s).
  { apply for_each_state. intros x s0.
    unfold bind, getattr, bind, gets, lift, emit. simpl.
    destruct (cache_factors (deref self s0)); [|reflexivity]. simpl.
    destruct (global_factor (deref self s0)); reflexivity. }
  destruct (for_each _ _ s) as [[r s1] t1]. exact Hloop.
Qed.

(** No operation changes the process environment. *)
Lemma os_environ_run ops : forall s s' t,
  run ops s = (s', t) -> os_environ s' = os_environ s.
Proof.
  induction ops as [|act ops IH]; intros s s' t Hrun; simpl in Hrun.
  - injection Hrun as <- <-. reflexivity.
  - destruct (perform act s) as [[r s1] t1] eqn:Hstep.
    destruct (run ops s1) as [s2 t2] eqn:Hrest.
    injection Hrun as <- <-. rewrite (IH s1 s2 t2 Hrest).
    destruct act as [n cb|self config|]; simpl in Hstep.
    + destruct (_ENSURE_CORRECT_CACHE_SIZING s) as [self|] eqn:Hens.
      * unfold add_resizable_cache, bind, modify, gets in Hstep. simpl in Hstep.
        rewrite Hens in Hstep.
        pose proof (ensure_cache_sizes_state self
                      (with_CACHES (Dict.set (_CACHES s) (Str.lower n) cb) s))
          as Hsame.
        destruct (ensure_cache_sizes self _) as [[r' s''] t''].
        simpl in Hsame. subst s''. injection Hstep as _ <- _. reflexivity.
      * rewrite add_resizable_cache_absent in Hstep by exact Hens.
        injection Hstep as _ <- _. reflexivity.
    + destruct (read_config_frame _ _ _ _ _ _ Hstep) as (_ & Henv & _).
      exact Henv.
    + destruct (default_factor_from (os_environ s)) as [f|e] eqn:Hf.
      * rewrite (_reset_ok s f Hf) in Hstep. injection Hstep as _ <- _. reflexivity.
      * rewrite (_reset_raise s e Hf) in Hstep. injection Hstep as _ <- _.
        reflexivity.
Qed.

(** In a process whose import of the module succeeded, the default factor
    can be read from the environment again: [_reset] does not raise. *)
Lemma default_parses_after_import env h s0 ops s t :
  import_module env h = Ok s0 -> run ops s0 = (s, t) ->
  exists f, default_factor_from (os_environ s) = Ok f.
Proof.
  intros Himp Hrun. rewrite (os_environ_run ops s0 s t Hrun).
  unfold import_module in Himp.
  destruct (default_factor_from env) as [f|e] eqn:Hf; [|discriminate].
  injection Himp as <-. simpl. eauto.
Qed.

(** While no load completes and no closure is installed, nothing is called. *)
Lemma silent_run ops : forall s s' t,
  _ENSURE_CORRECT_CACHE_SIZING s = None ->
  no_load_succeeds ops s = true ->
  run ops s = (s', t) ->
  t = [] /\ _ENSURE_CORRECT_CACHE_SIZING s' = None.
Proof.
  induction ops as [|act ops IH]; intros s s' t Hens Hq Hrun; simpl in *.
  - injection Hrun as <- <-. auto.
  - destruct (perform act s) as [[r s1] t1] eqn:Hstep.
    destruct (run ops s1) as [s2 t2] eqn:Hrest.
    injection Hrun as <- <-.
    apply andb_true_iff in Hq as [Ho Hq].
    assert (t1 = [] /\ _ENSURE_CORRECT_CACHE_SIZING s1 = None) as [-> Hens1].
    { destruct act as [n cb|self config|]; simpl in Hstep.
      - rewrite add_resizable_cache_absent in Hstep by exact Hens.
        injection Hstep as <- <- <-. auto.
      - destruct r as [[]|e]; [discriminate|].
        destruct (read_config_raise _ _ _ _ _ _ Hstep) as [-> Hsame].
        rewrite Hsame. auto.
      - destruct (default_factor_from (os_environ s)) as [f|e] eqn:Hf.
        + rewrite (_reset_ok s f Hf) in Hstep. injection Hstep as <- <- <-. auto.
        + rewrite (_reset_raise s e Hf) in Hstep. injection Hstep as <- <- <-. auto. }
    destruct (IH s1 s2 t2 Hens1 Hq Hrest) as [-> Hens2]. auto.
Qed.

(** Registrations and failed loads on other objects keep the closure of
    [self] installed with the same configuration. *)
Lemma installed_run self m g ops : forall s s' t,
  installed self m g s ->
  no_load_no_reset ops s = true ->
  leaves_alone self ops = true ->
  run ops s = (s', t) ->
  installed self m g s'.
Proof.
  induction ops as [|act ops IH]; intros s s' t Hinst Hq Hla Hrun; simpl in *.
  - injection Hrun as <- <-. exact Hinst.
  - destruct (perform act s) as [[r s1] t1] eqn:Hstep.
    destruct (run ops s1) as [s2 t2] eqn:Hrest.
    injection Hrun as <- <-.
    apply andb_true_iff in Hq as [Ho Hq].
    apply andb_true_iff in Hla as [Hact Hla].
    apply (IH s1 s2 t2); [|exact Hq|exact Hla|exact Hrest].
    destruct act as [n cb|o config|]; simpl in Hstep; [| |discriminate].
    + rewrite (add_resizable_cache_installed n cb s self m g Hinst) in Hstep.
      injection Hstep as <- <- <-. exact Hinst.
    + destruct r as [[]|e]; [discriminate|].
      assert (Hne : self <> o).
      { intros ->. rewrite Nat.eqb_refl in Hact. discriminate. }
      destruct (read_config_raise _ _ _ _ _ _ Hstep) as [_ Hsame].
      destruct (read_config_frame _ _ _ _ _ _ Hstep) as (_ & _ & Hother).
      destruct Hinst as (Hens & Hm & Hg).
      unfold installed. rewrite Hsame, (Hother self Hne). auto.
Qed.

End History.

(** ** Facts the statements below share *)

Section Shared.
Context `{Host} `{!Base}.
Implicit Types (s : state) (self : obj) (d M : list (string * pyval)).

(** The per-cache mapping of the file configuration as [read_config] reads
    it: [cache_config.get("per_cache_factors", {}) or {}]. *)
Lemma per_cache_factors_dict (cc : list (string * pyval)) d :
  Dict.get cc "per_cache_factors" = Some (PyDict d) ->
  individual_factors_config cc = PyDict d.
Proof.
  intros Hd. unfold individual_factors_config, Dict.get_default, py_or.
  rewrite Hd. destruct d; reflexivity.
Qed.

Lemma caches_dict (config cc : list (string * pyval)) :
  Dict.get config "caches" = Some (PyDict cc) -> cache_config config = PyDict cc.
Proof. intros Hc. unfold cache_config, Dict.get_default. rewrite Hc. reflexivity. Qed.

Lemma msg_not_a_dict_not_global : msg_not_a_dict <> msg_global_factor.
Proof. discriminate. Qed.

Lemma msg_per_cache_not_global name : msg_per_cache name <> msg_global_factor.
Proof. unfold msg_per_cache, msg_global_factor. simpl. discriminate. Qed.

Lemma calls_to_unregistered (m : list (string * pyval)) (g : pyval)
  (reg : list (string * callback)) name :
  name ∉ Dict.keys reg -> calls_to name (resize_all m g reg) = [].
Proof.
  unfold calls_to, resize_all.
  induction reg as [|[n0 cb0] reg IH]; intros Hnot; [reflexivity|].
  simpl in Hnot. apply not_elem_of_cons in Hnot as [Hne Hnot]. simpl.
  rewrite filter_cons_False by (simpl; congruence). apply IH, Hnot.
Qed.

(** In a registry with distinct names each cache gets exactly one call. *)
Lemma calls_to_resize_all (m : list (string * pyval)) (g : pyval)
  (reg : list (string * callback)) name cb :
  NoDup (Dict.keys reg) -> (name, cb) ∈ reg ->
  calls_to name (resize_all m g reg) = [Resize name cb (Dict.get_default m name g)].
Proof.
  unfold calls_to, resize_all.
  induction reg as [|[n0 cb0] reg IH]; intros Hnd Hin.
  - apply elem_of_nil in Hin. contradiction.
  - simpl in Hnd. apply NoDup_cons in Hnd as [Hnot Hnd]. simpl.
    apply elem_of_cons in Hin as [[= <- <-]|Hin].
    + rewrite filter_cons_True by reflexivity. f_equal.
      apply (calls_to_unregistered m g reg name Hnot).
    + rewrite filter_cons_False.
      * apply IH; assumption.
      * simpl. intros ->. apply Hnot. apply list_elem_of_fmap.
        exists (name, cb). auto.
Qed.

Lemma get_update_absent d : forall M k,
  k ∉ Dict.keys d -> Dict.get (Dict.update M d) k = Dict.get M k.
Proof.
  unfold Dict.update.
  induction d as [|[k0 v0] d IH]; intros M k Hnot; simpl; [reflexivity|].
  simpl in Hnot. apply not_elem_of_cons in Hnot as [Hne Hnot].
  rewrite IH by exact Hnot. apply get_set_other. congruence.
Qed.

(** Every entry of the file configuration is in the merged dictionary. *)
Lemma elem_update_file d : forall M k v,
  NoDup (Dict.keys d) -> (k, v) ∈ d -> (k, v) ∈ Dict.update M d.
Proof.
  induction d as [|[k0 v0] d IH]; intros M k v Hnd Hin.
  - apply elem_of_nil in Hin. contradiction.
  - simpl in Hnd. apply NoDup_cons in Hnd as [Hnot Hnd].
    change (Dict.update M ((k0, v0) :: d)) with (Dict.update (Dict.set M k0 v0) d).
    apply elem_of_cons in Hin as [[= -> ->]|Hin].
    + apply get_Some_elem. rewrite get_update_absent by exact Hnot.
      apply get_set_same.
    + apply IH; assumption.
Qed.

(** Every entry of the merged dictionary comes from one of the sources. *)
Lemma elem_update d : forall M k v,
  (k, v) ∈ Dict.update M d -> (k, v) ∈ M \/ (k, v) ∈ d.
Proof.
  induction d as [|[k0 v0] d IH]; intros M k v Hin; [auto|].
  change (Dict.update M ((k0, v0) :: d)) with (Dict.update (Dict.set M k0 v0) d)
    in Hin.
  apply IH in Hin as [Hin|Hin].
  - apply elem_of_set in Hin as [[-> ->]|Hin]; [right; apply elem_of_cons|]; auto.
  - right. apply elem_of_cons. auto.
Qed.

(** The environment only contributes floats. *)
Lemma env_factors_numeric (vars : list (string * string)) : forall acc envd,
  env_factors vars acc = Ok envd ->
  (forall k v, (k, v) ∈ acc -> is_number v = true) ->
  forall k v, (k, v) ∈ envd -> is_number v = true.
Proof.
  induction vars as [|[key val] vars IH]; intros acc envd Henv Hacc.
  - injection Henv as <-. exact Hacc.
  - rewrite env_factors_cons in Henv. destruct (is_override key).
    + destruct (float_of_str val) as [f|]; [|discriminate].
      apply (IH _ _ Henv).
      intros k v Hin. apply elem_of_set in Hin as [[_ ->]|Hin]; [reflexivity|].
      apply (Hacc k v Hin).
    + apply (IH _ _ Henv Hacc).
Qed.

(** The merged dictionary is all numbers when the file configuration is. *)
Lemma merged_numeric (vars : list (string * string)) envd d :
  env_factors vars [] = Ok envd ->
  (forall k v, (k, v) ∈ d -> is_number v = true) ->
  Forall numeric (Dict.update envd d).
Proof.
  intros Henv Hd. apply Forall_forall. intros [k v] Hin. unfold numeric. simpl.
  apply elem_update in Hin as [Hin|Hin]; [|apply (Hd k v Hin)].
  apply (env_factors_numeric vars [] envd Henv) with (k := k); [|exact Hin].
  intros k' v' Hnil. apply elem_of_nil in Hnil. contradiction.
Qed.

End Shared.

(** ** The paths of [read_config], from the conditions that select them *)

(** Identifies the variables of two descriptions of the same path and
    closes the goal when the descriptions disagree. *)
Ltac same_path :=
  repeat match goal with
  | H : parse_size ?a = Some ?x, H' : parse_size ?a = Some ?y |- _ =>
      assert (y = x) by congruence; first [subst y | subst x]; clear H'
  | H : cache_config ?c = PyDict ?a, H' : cache_config ?c = PyDict ?b |- _ =>
      assert (b = a) by congruence; first [subst b | subst a]; clear H'
  | H : cache_config ?c = PyDict _, H' : is_dict (cache_config ?c) = false |- _ =>
      rewrite H in H'; discriminate
  | H : env_factors ?e ?a = Ok ?x, H' : env_factors ?e ?a = Ok ?y |- _ =>
      assert (y = x) by congruence; first [subst y | subst x]; clear H'
  | H : individual_factors_config ?c = PyDict ?a,
    H' : individual_factors_config ?c = PyDict ?b |- _ =>
      assert (b = a) by congruence; first [subst b | subst a]; clear H'
  | H : individual_factors_config ?c = PyDict _,
    H' : is_dict (individual_factors_config ?c) = false |- _ =>
      rewrite H in H'; discriminate
  end;
  try congruence.

Section Paths.
Context `{Host} `{!Base}.
Implicit Types (s : state) (self : obj) (config cc d : list (string * pyval)).

Lemma numeric_split_absurd (pre post : list (string * pyval)) k v :
  Forall numeric (pre ++ (k, v) :: post) -> is_number v = false -> False.
Proof.
  intros Hall Hv. apply Forall_app in Hall as [_ Hall].
  apply Forall_cons in Hall as [Hk _]. unfold numeric in Hk. simpl in Hk.
  congruence.
Qed.

Lemma load_global_raises self config s size cc :
  parse_size (size_arg config) = Some size ->
  cache_config config = PyDict cc ->
  is_number (resolved_global cc s) = false ->
  read_config self config s =
  (Raise (ConfigError msg_global_factor),
   stage self (DEFAULT_CACHE_SIZE_FACTOR s) (_ENSURE_CORRECT_CACHE_SIZING s)
     (sized self size (resolved_global cc s) s) s,
   []).
Proof.
  intros Hsize Hcc Hg. pose proof (read_config_outcome self config s) as Ho.
  destruct (read_config self config s) as [[r s'] t].
  inversion Ho; subst; same_path.
Qed.

Lemma load_not_a_dict_raises self config s size cc envd :
  parse_size (size_arg config) = Some size ->
  cache_config config = PyDict cc ->
  is_number (resolved_global cc s) = true ->
  env_factors (environ_of self s) [] = Ok envd ->
  is_dict (individual_factors_config cc) = false ->
  read_config self config s =
  (Raise (ConfigError msg_not_a_dict),
   stage self (resolved_global cc s) (_ENSURE_CORRECT_CACHE_SIZING s)
     (sized self size (resolved_global cc s) s) s,
   []).
Proof.
  intros Hsize Hcc Hg Henv Hd. pose proof (read_config_outcome self config s) as Ho.
  destruct (read_config self config s) as [[r s'] t].
  inversion Ho; subst; same_path.
Qed.

Lemma load_completes self config s size cc envd d :
  parse_size (size_arg config) = Some size ->
  cache_config config = PyDict cc ->
  is_number (resolved_global cc s) = true ->
  env_factors (environ_of self s) [] = Ok envd ->
  individual_factors_config cc = PyDict d ->
  Forall numeric (Dict.update envd d) ->
  read_config self config s =
  (Ok tt,
   stage self (resolved_global cc s) (Some self)
     (with_cache_factors (normalised (Dict.update envd d) [])
        (sized self size (resolved_global cc s) s)) s,
   resize_all (normalised (Dict.update envd d) []) (resolved_global cc s)
     (_CACHES s)).
Proof.
  intros Hsize Hcc Hg Henv Hd Hall.
  pose proof (read_config_outcome self config s) as Ho.
  destruct (read_config self config s) as [[r s'] t].
  inversion Ho; subst; same_path.
  exfalso. match goal with
  | Hs : Dict.update _ _ = _ ++ _ :: _ |- _ => rewrite Hs in Hall
  end.
  eapply numeric_split_absurd; eassumption.
Qed.

Lemma load_per_cache_raises self config s size cc envd d k v :
  parse_size (size_arg config) = Some size ->
  cache_config config = PyDict cc ->
  is_number (resolved_global cc s) = true ->
  env_factors (environ_of self s) [] = Ok envd ->
  individual_factors_config cc = PyDict d ->
  (k, v) ∈ Dict.update envd d ->
  is_number v = false ->
  exists k' v' s',
    (k', v') ∈ d /\ is_number v' = false /\
    read_config self config s =
    (Raise (ConfigError (msg_per_cache (Str.lower k'))), s', []).
Proof.
  intros Hsize Hcc Hg Henv Hd Hin Hv.
  pose proof (read_config_outcome self config s) as Ho.
  destruct (read_config self config s) as [[r s'] t].
  inversion Ho as [| | | |
                  |size' cc' envd' d' pre k' v' post Hs' Hc' Hg' He' Hd' Hsplit Hpre Hv'
                  |size' cc' envd' d' Hs' Hc' Hg' He' Hd' Hall];
    subst; same_path.
  - exists k', v'. eexists. split; [|split; [exact Hv'|reflexivity]].
    assert (Hmem : (k', v') ∈ Dict.update envd d).
    { rewrite Hsplit. apply elem_of_app. right. apply elem_of_cons. auto. }
    apply elem_update in Hmem as [Hmem|Hmem]; [|exact Hmem].
    exfalso.
    assert (is_number v' = true); [|congruence].
    apply (env_factors_numeric _ [] envd Henv) with (k := k'); [|exact Hmem].
    intros k0 v0 Hnil. apply elem_of_nil in Hnil. contradiction.
  - exfalso. rewrite Forall_forall in Hall. specialize (Hall (k, v) Hin).
    unfold numeric in Hall. simpl in Hall. congruence.
Qed.

End Paths.

(** ** The claims *)

Section Claims.
Context `{Host} `{!Base}.
Implicit Types (s : state) (self : obj) (config cc d : list (string * pyval)).

(** C1. A load that completes calls, for the configuration [(g, m)] it
    resolved and stored on [self], the callback of every registered cache
    exactly once, with factor [m.get(name, g)]; a cache that neither a file
    entry nor an environment variable names receives [g] itself. *)
Theorem C1_load_resizes_each_cache_once self config s s' t :
  NoDup (Dict.keys (_CACHES s)) ->
  read_config self config s = (Ok tt, s', t) ->
  exists cc d envd m g,
    cache_config config = PyDict cc /\
    individual_factors_config cc = PyDict d /\
    env_factors (environ_of self s) [] = Ok envd /\
    g = resolved_global cc s /\
    m = normalised (Dict.update envd d) [] /\
    global_factor (deref self s') = Some g /\
    cache_factors (deref self s') = Some m /\
    _CACHES s' = _CACHES s /\
    t = resize_all m g (_CACHES s) /\
    (forall name cb, (name, cb) ∈ _CACHES s ->
       calls_to name t = [Resize name cb (Dict.get_default m name g)]) /\
    (forall name cb, (name, cb) ∈ _CACHES s ->
       (forall k, k ∈ Dict.keys d -> Str.lower k <> name) ->
       (forall key val, (key, val) ∈ environ_of self s ->
          is_override key = true -> env_name key <> name) ->
       calls_to name t = [Resize name cb g]).
Proof.
  intros Hnd Hrun. pose proof (read_config_outcome self config s) as Ho.
  rewrite Hrun in Ho. inversion Ho as [| | | | | |size cc envd d Hsize Hcc Hg Henv Hd Hall].
  subst. exists cc, d, envd, (normalised (Dict.update envd d) []), (resolved_global cc s).
  rewrite deref_stage_same. simpl.
  repeat (split; [first [assumption|reflexivity]|]).
  split.
  - intros name cb Hin. apply calls_to_resize_all; assumption.
  - intros name cb Hin Hfile Henvn.
    rewrite (calls_to_resize_all _ _ _ name cb Hnd Hin).
    unfold Dict.get_default.
    rewrite (no_override_get _ envd d name Henv Hfile Henvn). reflexivity.
Qed.

(** C2, amended. After a load that completes, the factor stored for a name
    that the file configuration has an entry for (under any letter case) is
    the value of such a file entry, whatever the global factor and the
    environment say; it is exactly [v] when every file key that lower-cases
    to the name carries [v], in particular when only one does. *)
Theorem C2_file_entry_beats_environment self config s s' t cc d n :
  NoDup (Dict.keys (_CACHES s)) ->
  read_config self config s = (Ok tt, s', t) ->
  Dict.get config "caches" = Some (PyDict cc) ->
  Dict.get cc "per_cache_factors" = Some (PyDict d) ->
  (exists k v, (k, v) ∈ d /\ Str.lower k = n) ->
  exists m x,
    cache_factors (deref self s') = Some m /\
    Dict.get m n = Some x /\
    (exists k, (k, x) ∈ d /\ Str.lower k = n) /\
    (forall v, (forall k' v', (k', v') ∈ d -> Str.lower k' = n -> v' = v) -> x = v) /\
    (forall cb, (n, cb) ∈ _CACHES s -> calls_to n t = [Resize n cb x]).
Proof.
  intros Hnd Hrun Hcc Hd Hex. apply caches_dict in Hcc.
  apply per_cache_factors_dict in Hd.
  pose proof (read_config_outcome self config s) as Ho. rewrite Hrun in Ho.
  inversion Ho as [| | | | | |size cc' envd d' Hsize Hcc' Hg Henv Hd' Hall].
  subst. rewrite Hcc in Hcc'. injection Hcc' as <-.
  rewrite Hd in Hd'. injection Hd' as <-.
  destruct (file_wins (fun x => exists k, (k, x) ∈ d /\ Str.lower k = n)
              _ envd d n Henv) as (x & Hx & k & Hk & Hn).
  { intros k v Hin Hk. exists k. auto. }
  { exact Hex. }
  exists (normalised (Dict.update envd d) []), x.
  rewrite deref_stage_same. simpl.
  split; [reflexivity|]. split; [exact Hx|]. split; [exists k; auto|].
  split.
  - intros v Hv. apply (Hv k x Hk Hn).
  - intros cb Hin. rewrite (calls_to_resize_all _ _ _ n cb Hnd Hin).
    unfold Dict.get_default. rewrite Hx. reflexivity.
Qed.

(** C3. When a load fails with the shape error or a type error of
    [caches.per_cache_factors], the process-wide default factor is the
    global factor this load resolved, not the value it had before the load;
    the registry and the installed closure are as before, and no callback
    was called. *)
Theorem C3_failed_load_keeps_overwritten_default self config s msg s' t :
  read_config self config s = (Raise (ConfigError msg), s', t) ->
  msg = msg_not_a_dict \/ (exists name, msg = msg_per_cache name) ->
  exists cc,
    cache_config config = PyDict cc /\
    DEFAULT_CACHE_SIZE_FACTOR s' = resolved_global cc s /\
    _CACHES s' = _CACHES s /\
    _ENSURE_CORRECT_CACHE_SIZING s' = _ENSURE_CORRECT_CACHE_SIZING s /\
    t = [].
Proof.
  intros Hrun Hmsg. pose proof (read_config_outcome self config s) as Ho.
  rewrite Hrun in Ho.
  inversion Ho as [| |size cc Hsize Hcc Hg|size cc e Hsize Hcc Hg Henv
                  |size cc envd Hsize Hcc Hg Henv Hd
                  |size cc envd d pre k v post Hsize Hcc Hg Henv Hd Hsplit Hpre Hv|];
    subst.
  - exfalso. destruct Hmsg as [Hm|[name Hm]].
    + symmetry in Hm. exact (msg_not_a_dict_not_global Hm).
    + symmetry in Hm. exact (msg_per_cache_not_global name Hm).
  - exists cc. repeat split; assumption.
  - exists cc. repeat split; assumption.
  - exists cc. repeat split; assumption.
Qed.

(** C4, amended. A [caches.per_cache_factors] that is present, is not a
    mapping and is true in Python's sense makes the load fail, with no
    callback called and the registry and the installed closure kept; the
    error is ['caches.per_cache_factors must be a dictionary'] once the
    earlier steps pass ([event_cache_size] parses, the global factor is a
    number, the environment values parse).  One that is false in Python's
    sense (an empty sequence or string, zero, [False]) is read as an empty
    mapping and, under the same conditions, the load completes. *)
Theorem C4_non_mapping_rejected_when_truthy self config s cc v :
  Dict.get config "caches" = Some (PyDict cc) ->
  Dict.get cc "per_cache_factors" = Some v ->
  is_dict v = false ->
  (truthy v = true ->
     (exists e s',
        read_config self config s = (Raise e, s', []) /\
        _ENSURE_CORRECT_CACHE_SIZING s' = _ENSURE_CORRECT_CACHE_SIZING s /\
        _CACHES s' = _CACHES s) /\
     (forall size envd,
        parse_size (size_arg config) = Some size ->
        is_number (resolved_global cc s) = true ->
        env_factors (environ_of self s) [] = Ok envd ->
        exists s',
          read_config self config s = (Raise (ConfigError msg_not_a_dict), s', []))) /\
  (truthy v = false ->
     forall size envd,
       parse_size (size_arg config) = Some size ->
       is_number (resolved_global cc s) = true ->
       env_factors (environ_of self s) [] = Ok envd ->
       exists s',
         read_config self config s =
         (Ok tt, s',
          resize_all (normalised envd []) (resolved_global cc s) (_CACHES s))).
Proof.
  intros Hcc Hv Hnd. apply caches_dict in Hcc.
  assert (Hifc_t : truthy v = true -> individual_factors_config cc = v).
  { intros Ht. unfold individual_factors_config, Dict.get_default, py_or.
    rewrite Hv, Ht. reflexivity. }
  assert (Hifc_f : truthy v = false -> individual_factors_config cc = PyDict []).
  { intros Ht. unfold individual_factors_config, Dict.get_default, py_or.
    rewrite Hv, Ht. reflexivity. }
  split; [intros Ht; split|intros Ht].
  - pose proof (read_config_outcome self config s) as Ho.
    destruct (read_config self config s) as [[r s'] t].
    inversion Ho as [| | | | | |size cc' envd d' Hsize Hcc' Hg Henv Hd' Hall];
      subst; try (eexists _, _; repeat split; reflexivity).
    exfalso. rewrite Hcc in Hcc'. injection Hcc' as <-.
    rewrite (Hifc_t Ht) in Hd'. subst v. discriminate.
  - intros size envd Hsize Hg Henv. eexists.
    apply (load_not_a_dict_raises self config s size cc envd); try assumption.
    rewrite (Hifc_t Ht). exact Hnd.
  - intros size envd Hsize Hg Henv. eexists.
    apply (load_completes self config s size cc envd []); try assumption.
    + apply Hifc_f, Ht.
    + apply (merged_numeric _ envd [] Henv). intros k v' Hin.
      apply elem_of_nil in Hin. contradiction.
Qed.

(** C5, amended. In a state the module can reach, a registration made
    while a closure is installed runs it before returning: every cache of
    the registry, the new one included, gets exactly one call, with factor
    [cache_factors.get(name, global_factor)] read from the configuration
    object [self] whose load installed the closure.  These are the values
    that load resolved as long as only registrations and failed loads on
    other objects came after it (no reset, no load that completes, no load
    on [self] again). *)
Theorem C5_registration_resyncs_registry self s n cb :
  consistent s ->
  _ENSURE_CORRECT_CACHE_SIZING s = Some self ->
  exists m g reg,
    cache_factors (deref self s) = Some m /\
    global_factor (deref self s) = Some g /\
    reg = Dict.set (_CACHES s) (Str.lower n) cb /\
    add_resizable_cache n cb s = (Ok tt, with_CACHES reg s, resize_all m g reg) /\
    NoDup (Dict.keys reg) /\
    (Str.lower n, cb) ∈ reg /\
    (forall name cb', (name, cb') ∈ reg ->
       calls_to name (resize_all m g reg) =
       [Resize name cb' (Dict.get_default m name g)]) /\
    (forall config s0 s1 t1 ops t,
       read_config self config s0 = (Ok tt, s1, t1) ->
       no_load_no_reset ops s1 = true ->
       leaves_alone self ops = true ->
       run ops s1 = (s, t) ->
       cache_factors (deref self s1) = Some m /\
       global_factor (deref self s1) = Some g).
Proof.
  intros [Hnd Hattr] Hens. destruct (Hattr self Hens) as (m & g & Hm & Hg).
  assert (Hinst : installed self m g s) by (split; auto).
  assert (Hnd' : NoDup (Dict.keys (Dict.set (_CACHES s) (Str.lower n) cb))).
  { apply keys_set_NoDup, Hnd. }
  exists m, g, (Dict.set (_CACHES s) (Str.lower n) cb).
  split; [exact Hm|]. split; [exact Hg|]. split; [reflexivity|].
  split; [apply (add_resizable_cache_installed n cb s self m g Hinst)|].
  split; [exact Hnd'|]. split; [apply get_Some_elem, get_set_same|]. split.
  - intros name cb' Hin. apply calls_to_resize_all; assumption.
  - intros config s0 s1 t1 ops t Hload Hq Hla Hrun.
    destruct (read_config_ok_installs _ _ _ _ _ Hload) as (m1 & g1 & Hinst1).
    pose proof (installed_run self m1 g1 ops s1 s t Hinst1 Hq Hla Hrun)
      as (_ & Hm' & Hg').
    destruct Hinst1 as (_ & Hm1 & Hg1).
    rewrite Hm1, Hg1. split; congruence.
Qed.

(** C6. As long as no closure is installed and no load completes, no
    operation calls a resize callback: a cache registered before the first
    load that completes receives nothing until that load. *)
Theorem C6_no_resize_before_first_load ops s s' t :
  _ENSURE_CORRECT_CACHE_SIZING s = None ->
  no_load_succeeds ops s = true ->
  run ops s = (s', t) ->
  t = [] /\
  _ENSURE_CORRECT_CACHE_SIZING s' = None /\
  forall n cb s'' t',
    add_resizable_cache n cb s' = (Ok tt, s'', t') ->
    t' = [] /\ _ENSURE_CORRECT_CACHE_SIZING s'' = None /\
    (Str.lower n, cb) ∈ _CACHES s''.
Proof.
  intros Hens Hq Hrun.
  destruct (silent_run ops s s' t Hens Hq Hrun) as [-> Hens'].
  split; [reflexivity|]. split; [exact Hens'|].
  intros n cb s'' t' Hadd.
  rewrite add_resizable_cache_absent in Hadd by exact Hens'.
  injection Hadd as <- <-. split; [reflexivity|]. split; [exact Hens'|].
  apply get_Some_elem, get_set_same.
Qed.

(** C7, amended. When [caches.global_factor] is present and is not a
    number, the load fails with no callback called and with the installed
    closure, the registry and the process-wide default factor as before;
    the error is [ConfigError('caches.global_factor must be a number.')]
    once [event_cache_size], which line 70 reads first, parses, and the
    error of the size parser, with the whole state unchanged, when it does
    not. *)
Theorem C7_global_factor_must_be_number self config s cc v :
  Dict.get config "caches" = Some (PyDict cc) ->
  Dict.get cc "global_factor" = Some v ->
  is_number v = false ->
  (exists e s',
     read_config self config s = (Raise e, s', []) /\
     _ENSURE_CORRECT_CACHE_SIZING s' = _ENSURE_CORRECT_CACHE_SIZING s /\
     _CACHES s' = _CACHES s /\
     DEFAULT_CACHE_SIZE_FACTOR s' = DEFAULT_CACHE_SIZE_FACTOR s) /\
  (forall size,
     parse_size (size_arg config) = Some size ->
     exists s',
       read_config self config s
       = (Raise (ConfigError msg_global_factor), s', []) /\
       _ENSURE_CORRECT_CACHE_SIZING s' = _ENSURE_CORRECT_CACHE_SIZING s /\
       _CACHES s' = _CACHES s /\
       DEFAULT_CACHE_SIZE_FACTOR s' = DEFAULT_CACHE_SIZE_FACTOR s /\
       global_factor (deref self s') = Some v) /\
  (parse_size (size_arg config) = None ->
     read_config self config s = (Raise SizeError, s, [])).
Proof.
  intros Hcc Hv Hn. apply caches_dict in Hcc.
  assert (Hg : resolved_global cc s = v).
  { unfold resolved_global, Dict.get_default. rewrite Hv. reflexivity. }
  assert (Hglobal : forall size,
    parse_size (size_arg config) = Some size ->
    read_config self config s
    = (Raise (ConfigError msg_global_factor),
       stage self (DEFAULT_CACHE_SIZE_FACTOR s) (_ENSURE_CORRECT_CACHE_SIZING s)
         (sized self size (resolved_global cc s) s) s,
       [])).
  { intros size Hsize.
    apply (load_global_raises self config s size cc Hsize Hcc).
    rewrite Hg. exact Hn. }
  assert (Hsizeerr : parse_size (size_arg config) = None ->
                     read_config self config s = (Raise SizeError, s, [])).
  { intros Hnone. pose proof (read_config_outcome self config s) as Ho.
    destruct (read_config self config s) as [[r s'] t].
    inversion Ho; subst; same_path. }
  split; [|split; [|exact Hsizeerr]].
  - destruct (parse_size (size_arg config)) as [size|] eqn:Hsize.
    + eexists _, _. split; [apply (Hglobal size eq_refl)|]. repeat split.
    + eexists _, _. split; [apply (Hsizeerr eq_refl)|]. repeat split.
  - intros size Hsize. eexists. split; [apply (Hglobal size Hsize)|].
    rewrite deref_stage_same, Hg. repeat split.
Qed.

(** C8, amended. When [caches.per_cache_factors] is a mapping with an entry
    whose value is not a number, the load fails with no callback called and
    with the registry and the installed closure kept; once the earlier
    steps pass ([event_cache_size] parses, the global factor is a number,
    the environment values parse) the error is
    ['caches.per_cache_factors.<name> must be a number'] for the lower-cased
    name of such an entry. *)
Theorem C8_per_cache_factor_must_be_number self config s cc d k v :
  Dict.get config "caches" = Some (PyDict cc) ->
  Dict.get cc "per_cache_factors" = Some (PyDict d) ->
  NoDup (Dict.keys d) ->
  (k, v) ∈ d ->
  is_number v = false ->
  (exists e s',
     read_config self config s = (Raise e, s', []) /\
     _ENSURE_CORRECT_CACHE_SIZING s' = _ENSURE_CORRECT_CACHE_SIZING s /\
     _CACHES s' = _CACHES s) /\
  (forall size envd,
     parse_size (size_arg config) = Some size ->
     is_number (resolved_global cc s) = true ->
     env_factors (environ_of self s) [] = Ok envd ->
     exists k' v' s',
       (k', v') ∈ d /\ is_number v' = false /\
       read_config self config s =
       (Raise (ConfigError (msg_per_cache (Str.lower k'))), s', [])).
Proof.
  intros Hcc Hd Hnd Hin Hv. apply caches_dict in Hcc.
  apply per_cache_factors_dict in Hd. split.
  - pose proof (read_config_outcome self config s) as Ho.
    destruct (read_config self config s) as [[r s'] t].
    inversion Ho as [| | | | | |size cc' envd d' Hsize Hcc' Hg Henv Hd' Hall];
      subst; try (eexists _, _; repeat split; reflexivity).
    exfalso. same_path. rewrite Forall_forall in Hall.
    specialize (Hall (k, v) (elem_update_file d envd k v Hnd Hin)).
    unfold numeric in Hall. simpl in Hall. congruence.
  - intros size envd Hsize Hg Henv.
    apply (load_per_cache_raises self config s size cc envd d k v);
      try assumption.
    apply elem_update_file; assumption.
Qed.

(** C9. A reset that returns leaves an empty registry, no installed
    closure and the default factor read afresh from the environment
    variable ([0.5] when it is unset); until a load completes, the
    operations that follow call no callback. *)
Theorem C9_reset_clears_registry_and_closure s f :
  default_factor_from (os_environ s) = Ok f ->
  exists s',
    _reset s = (Ok tt, s', []) /\
    _CACHES s' = [] /\
    _ENSURE_CORRECT_CACHE_SIZING s' = None /\
    DEFAULT_CACHE_SIZE_FACTOR s' = PyFloat f /\
    (Dict.get (os_environ s) _CACHE_PREFIX = None -> f = float_half) /\
    (forall str, Dict.get (os_environ s) _CACHE_PREFIX = Some str ->
       float_of_str str = Some f) /\
    (forall ops s'' t,
       no_load_succeeds ops s' = true -> run ops s' = (s'', t) -> t = []).
Proof.
  intros Hf. eexists. split; [apply (_reset_ok s f Hf)|]. simpl.
  repeat (split; [reflexivity|]).
  unfold default_factor_from in Hf. split; [|split].
  - intros Hnone. rewrite Hnone in Hf. congruence.
  - intros str Hsome. rewrite Hsome in Hf.
    destruct (float_of_str str); congruence.
  - intros ops s'' t Hq Hrun.
    eapply silent_run; [|exact Hq|exact Hrun]. reflexivity.
Qed.

(** C10. Booleans pass the number check.  A boolean [caches.global_factor]
    is accepted as the global factor, and with per-cache values that are
    numbers in the sense of the check (booleans included) the load
    completes; a cache no source names then receives the boolean global
    factor, and a cache whose file entries carry a boolean receives that
    boolean. *)
Theorem C10_booleans_pass_as_numbers self config s size cc envd d :
  NoDup (Dict.keys (_CACHES s)) ->
  parse_size (size_arg config) = Some size ->
  Dict.get config "caches" = Some (PyDict cc) ->
  is_number (resolved_global cc s) = true ->
  env_factors (environ_of self s) [] = Ok envd ->
  individual_factors_config cc = PyDict d ->
  (forall k v, (k, v) ∈ d -> is_number v = true) ->
  (forall b, is_number (PyBool b) = true) /\
  (forall b, Dict.get cc "global_factor" = Some (PyBool b) ->
     resolved_global cc s = PyBool b) /\
  exists s' t,
    read_config self config s = (Ok tt, s', t) /\
    global_factor (deref self s') = Some (resolved_global cc s) /\
    DEFAULT_CACHE_SIZE_FACTOR s' = resolved_global cc s /\
    (forall name cb b,
       Dict.get cc "global_factor" = Some (PyBool b) ->
       (name, cb) ∈ _CACHES s ->
       (forall k, k ∈ Dict.keys d -> Str.lower k <> name) ->
       (forall key val, (key, val) ∈ environ_of self s ->
          is_override key = true -> env_name key <> name) ->
       calls_to name t = [Resize name cb (PyBool b)]) /\
    (forall name cb b,
       (name, cb) ∈ _CACHES s ->
       (exists k, (k, PyBool b) ∈ d /\ Str.lower k = name) ->
       (forall k v, (k, v) ∈ d -> Str.lower k = name -> v = PyBool b) ->
       calls_to name t = [Resize name cb (PyBool b)]).
Proof.
  intros Hnd Hsize Hcc Hg Henv Hd Hall. apply caches_dict in Hcc.
  assert (Hbool : forall b, Dict.get cc "global_factor" = Some (PyBool b) ->
                            resolved_global cc s = PyBool b).
  { intros b Hb. unfold resolved_global, Dict.get_default. rewrite Hb. reflexivity. }
  split; [reflexivity|]. split; [exact Hbool|].
  eexists _, _. split.
  { apply (load_completes self config s size cc envd d); try assumption.
    apply (merged_numeric _ envd d Henv Hall). }
  rewrite deref_stage_same. simpl. split; [reflexivity|]. split; [reflexivity|].
  split.
  - intros name cb b Hb Hin Hfile Henvn.
    rewrite (calls_to_resize_all _ _ _ name cb Hnd Hin).
    unfold Dict.get_default.
    rewrite (no_override_get _ envd d name Henv Hfile Henvn), (Hbool b Hb).
    reflexivity.
  - intros name cb b Hin (k & Hk & Hname) Hsame.
    rewrite (calls_to_resize_all _ _ _ name cb Hnd Hin).
    destruct (file_wins (fun x => x = PyBool b) _ envd d name Henv)
      as (x & Hx & ->).
    + exact Hsame.
    + exists k, (PyBool b). auto.
    + unfold Dict.get_default. rewrite Hx. reflexivity.
Qed.

End Claims.

(** ** Further properties of the module *)

Section More.
Context `{Host} `{!Base}.
Implicit Types (s : state) (self o : obj) (config cc d : list (string * pyval)).

Lemma keys_set_present {V} (d : list (string * V)) k v :
  k ∈ Dict.keys d -> Dict.keys (Dict.set d k v) = Dict.keys d.
Proof.
  unfold Dict.keys. induction d as [|[k0 v0] d IH]; simpl; intros Hin.
  - apply elem_of_nil in Hin. contradiction.
  - destruct (String.eqb_spec k0 k) as [->|Hne]; [reflexivity|].
    apply elem_of_cons in Hin as [Heq|Hin]; [congruence|].
    simpl. rewrite IH by exact Hin. reflexivity.
Qed.

Lemma set_absent {V} (d : list (string * V)) k v :
  k ∉ Dict.keys d -> Dict.set d k v = d ++ [(k, v)].
Proof.
  unfold Dict.keys. induction d as [|[k0 v0] d IH]; simpl; intros Hnot;
    [reflexivity|].
  apply not_elem_of_cons in Hnot as [Hne Hnot].
  destruct (String.eqb_spec k0 k) as [->|_]; [congruence|].
  rewrite IH by exact Hnot. reflexivity.
Qed.

(** Whatever the installed closure does, a registration ends in the state
    that differs from the initial one by the registry entry only. *)
Lemma add_resizable_cache_state (n : string) (cb : callback) s :
  snd (fst (add_resizable_cache n cb s))
  = with_CACHES (Dict.set (_CACHES s) (Str.lower n) cb) s.
Proof.
  unfold add_resizable_cache, bind, modify, gets. simpl.
  destruct (_ENSURE_CORRECT_CACHE_SIZING s) as [self|]; [|reflexivity].
  pose proof (ensure_cache_sizes_state self
                (with_CACHES (Dict.set (_CACHES s) (Str.lower n) cb) s)) as Hsame.
  destruct (ensure_cache_sizes self _) as [[r s1] t1]. exact Hsame.
Qed.

(** X1. [add_resizable_cache] changes nothing but the registry, where the
    callback is then found under the lower-cased name (so under every
    spelling of the name that differs in letter case only) and every other
    name keeps its callback. *)
Theorem X1_registration_stores_callback (n : string) (cb : callback) s r s' t :
  add_resizable_cache n cb s = (r, s', t) ->
  Dict.get (_CACHES s') (Str.lower n) = Some cb /\
  (forall n2, Str.lower n2 = Str.lower n ->
     Dict.get (_CACHES s') (Str.lower n2) = Some cb) /\
  (forall n', n' <> Str.lower n ->
     Dict.get (_CACHES s') n' = Dict.get (_CACHES s) n') /\
  DEFAULT_CACHE_SIZE_FACTOR s' = DEFAULT_CACHE_SIZE_FACTOR s /\
  _ENSURE_CORRECT_CACHE_SIZING s' = _ENSURE_CORRECT_CACHE_SIZING s /\
  os_environ s' = os_environ s /\
  heap s' = heap s.
Proof.
  intros Hrun. pose proof (add_resizable_cache_state n cb s) as Hs.
  rewrite Hrun in Hs. simpl in Hs. subst s'. simpl.
  split; [apply get_set_same|]. split.
  - intros n2 ->. apply get_set_same.
  - split; [|repeat split]. intros n' Hne. apply get_set_other. congruence.
Qed.

(** X2. A registration under a name that is already registered (up to
    letter case) replaces the callback where it stands: the names and their
    order are unchanged.  A registration under a new name appends the
    entry. *)
Theorem X2_registration_keeps_order (n : string) (cb : callback) s r s' t :
  add_resizable_cache n cb s = (r, s', t) ->
  (Str.lower n ∈ Dict.keys (_CACHES s) ->
     Dict.keys (_CACHES s') = Dict.keys (_CACHES s)) /\
  (Str.lower n ∉ Dict.keys (_CACHES s) ->
     _CACHES s' = _CACHES s ++ [(Str.lower n, cb)]).
Proof.
  intros Hrun. pose proof (add_resizable_cache_state n cb s) as Hs.
  rewrite Hrun in Hs. simpl in Hs. subst s'. simpl. split.
  - apply keys_set_present.
  - apply set_absent.
Qed.

(** X3. Whatever its outcome, [read_config] on [self] leaves the registry,
    the process environment, every other configuration object and the
    [_environ] of [self] as they were. *)
Theorem X3_load_touches_only_its_object self config s r s' t :
  read_config self config s = (r, s', t) ->
  _CACHES s' = _CACHES s /\
  os_environ s' = os_environ s /\
  (forall o, o <> self -> heap s' !! o = heap s !! o) /\
  _environ (deref self s') = _environ (deref self s) /\
  (forall o, environ_of o s' = environ_of o s).
Proof.
  intros Hrun. pose proof (read_config_outcome self config s) as Ho.
  rewrite Hrun in Ho.
  assert (Hstage : forall dflt ens c,
    _environ c = _environ (deref self s) ->
    (forall o, o <> self ->
       heap (stage self dflt ens c s) !! o = heap s !! o) /\
    _environ (deref self (stage self dflt ens c s)) = _environ (deref self s) /\
    (forall o, environ_of o (stage self dflt ens c s) = environ_of o s)).
  { intros dflt ens c Hc. split; [|split].
    - intros o Hne. unfold stage. simpl. apply lookup_insert_ne. congruence.
    - rewrite deref_stage_same. exact Hc.
    - intros o. unfold environ_of. destruct (decide (o = self)) as [->|Hne].
      + rewrite deref_stage_same, Hc. reflexivity.
      + rewrite deref_stage_other by exact Hne. reflexivity. }
  inversion Ho; subst; (split; [reflexivity|]); (split; [reflexivity|]);
    try (apply Hstage; reflexivity).
  repeat split.
Qed.

Lemma resolved_global_again cc s :
  Dict.get_default cc "global_factor" (resolved_global cc s) = resolved_global cc s.
Proof.
  unfold resolved_global, Dict.get_default.
  destruct (Dict.get cc "global_factor"); reflexivity.
Qed.

(** X4. A load that completed can be repeated: the same [read_config] on
    the state it left completes again, leaves that state as it is and makes
    the same calls. *)
Theorem X4_load_is_idempotent self config s s' t :
  read_config self config s = (Ok tt, s', t) ->
  read_config self config s' = (Ok tt, s', t).
Proof.
  intros Hrun. pose proof (read_config_outcome self config s) as Ho.
  rewrite Hrun in Ho.
  inversion Ho as [| | | | | |size cc envd d Hsize Hcc Hg Henv Hd Hall]. subst.
  set (g := resolved_global cc s) in *.
  set (m := normalised (Dict.update envd d) []) in *.
  set (s1 := stage self g (Some self) (with_cache_factors m (sized self size g s)) s).
  assert (Hg1 : resolved_global cc s1 = g).
  { unfold resolved_global at 1. simpl. apply resolved_global_again. }
  assert (Henv1 : environ_of self s1 = environ_of self s).
  { unfold environ_of, s1. rewrite deref_stage_same. reflexivity. }
  rewrite (load_completes self config s1 size cc envd d); try assumption.
  - rewrite Hg1. fold m.
    assert (Hsame : stage self g (Some self)
                      (with_cache_factors m (sized self size g s1)) s1 = s1).
    { unfold sized. unfold s1 at 1. rewrite deref_stage_same.
      unfold s1, stage. simpl. rewrite insert_insert_eq. reflexivity. }
    rewrite Hsame. reflexivity.
  - rewrite Hg1. exact Hg.
  - rewrite Henv1. exact Henv.
Qed.

(** X6. The most recent load that completed decides: after a load on [a]
    and then a load on [b] that both complete, the calls of the second load
    and of the registrations that follow use the configuration stored on
    [b]. *)
Theorem X6_latest_load_decides (a b : obj) config1 config2 s s1 t1 s2 t2
  (n : string) (cb : callback) :
  read_config a config1 s = (Ok tt, s1, t1) ->
  read_config b config2 s1 = (Ok tt, s2, t2) ->
  exists m g,
    cache_factors (deref b s2) = Some m /\
    global_factor (deref b s2) = Some g /\
    _ENSURE_CORRECT_CACHE_SIZING s2 = Some b /\
    t2 = resize_all m g (_CACHES s) /\
    add_resizable_cache n cb s2
    = (Ok tt,
       with_CACHES (Dict.set (_CACHES s) (Str.lower n) cb) s2,
       resize_all m g (Dict.set (_CACHES s) (Str.lower n) cb)).
Proof.
  intros Hrun1 Hrun2.
  destruct (read_config_frame _ _ _ _ _ _ Hrun1) as (Hreg1 & _ & _).
  pose proof (read_config_outcome b config2 s1) as Ho. rewrite Hrun2 in Ho.
  inversion Ho as [| | | | | |size cc envd d Hsize Hcc Hg Henv Hd Hall]. subst.
  eexists _, _. rewrite deref_stage_same. simpl.
  split; [reflexivity|]. split; [reflexivity|]. split; [reflexivity|].
  split; [rewrite Hreg1; reflexivity|].
  erewrite add_resizable_cache_installed.
  - simpl. rewrite Hreg1. reflexivity.
  - split; [reflexivity|]. rewrite deref_stage_same. split; reflexivity.
Qed.

Lemma env_factors_raises (vars : list (string * string)) :
  forall (acc : list (string * pyval)) e,
  env_factors vars acc = Raise e ->
  e = ValueError /\
  exists key val,
    (key, val) ∈ vars /\ is_override key = true /\ float_of_str val = None.
Proof.
  induction vars as [|[key val] vars IH]; intros acc e Henv; [discriminate|].
  rewrite env_factors_cons in Henv. destruct (is_override key) eqn:Hov.
  - destruct (float_of_str val) as [f|] eqn:Hf.
    + destruct (IH _ _ Henv) as (-> & key' & val' & Hin & Hov' & Hf').
      split; [reflexivity|]. exists key', val'.
      split; [apply elem_of_cons; auto|auto].
    + injection Henv as <-. split; [reflexivity|]. exists key, val.
      split; [apply elem_of_cons; auto|auto].
  - destruct (IH _ _ Henv) as (-> & key' & val' & Hin & Hov' & Hf').
    split; [reflexivity|]. exists key', val'.
    split; [apply elem_of_cons; auto|auto].
Qed.

Lemma env_factors_malformed (vars : list (string * string)) :
  forall (acc : list (string * pyval)),
  (exists key val,
     (key, val) ∈ vars /\ is_override key = true /\ float_of_str val = None) ->
  env_factors vars acc = Raise ValueError.
Proof.
  induction vars as [|[key val] vars IH]; intros acc (key' & val' & Hin & Hov & Hf).
  - apply elem_of_nil in Hin. contradiction.
  - rewrite env_factors_cons.
    apply elem_of_cons in Hin as [[= <- <-]|Hin].
    + rewrite Hov, Hf. reflexivity.
    + destruct (is_override key).
      * destruct (float_of_str val); [|reflexivity]. apply IH. eauto.
      * apply IH. eauto.
Qed.




(** X7. [read_config] raises nothing but the error of the size parser, an
    [AttributeError], a [ValueError] and its three [ConfigError]s; it has
    called no callback and has left the installed closure in place, and
    when the size parser raised it has changed nothing at all. *)
Theorem X7_load_raises_only_these self config s e s' t :
  read_config self config s = (Raise e, s', t) ->
  (e = SizeError \/ e = AttributeError \/ e = ValueError \/
   e = ConfigError msg_global_factor \/ e = ConfigError msg_not_a_dict \/
   exists k, e = ConfigError (msg_per_cache (Str.lower k))) /\
  t = [] /\
  _ENSURE_CORRECT_CACHE_SIZING s' = _ENSURE_CORRECT_CACHE_SIZING s /\
  (e = SizeError -> s' = s).
Proof.
  intros Hrun. pose proof (read_config_outcome self config s) as Ho.
  rewrite Hrun in Ho.
  inversion Ho as [| | |size cc e' Hsize Hcc Hg Henv| |
                  size cc envd d pre k v post|]; subst;
    (split; [|split; [reflexivity|split; [reflexivity|]]]);
    try discriminate; auto 10.
  - destruct (env_factors_raises _ _ _ Henv) as [-> _]. auto.
  - destruct (env_factors_raises _ _ _ Henv) as [-> _]. discriminate.
  - do 5 right. exists k. reflexivity.
Qed.

(** X8. An environment variable [SYNAPSE_CACHE_FACTOR_...] whose value is
    not a number makes the load raise [ValueError], whatever
    [caches.per_cache_factors] holds: the process-wide default factor is
    already the new global factor, no callback is called and the installed
    closure stays.  ([event_cache_size] and the global factor are checked
    first.) *)
Theorem X8_malformed_override_raises self config s size cc
  (key val : string) :
  parse_size (size_arg config) = Some size ->
  cache_config config = PyDict cc ->
  is_number (resolved_global cc s) = true ->
  (key, val) ∈ environ_of self s ->
  is_override key = true ->
  float_of_str val = None ->
  exists s',
    read_config self config s = (Raise ValueError, s', []) /\
    DEFAULT_CACHE_SIZE_FACTOR s' = resolved_global cc s /\
    _ENSURE_CORRECT_CACHE_SIZING s' = _ENSURE_CORRECT_CACHE_SIZING s /\
    _CACHES s' = _CACHES s.
Proof.
  intros Hsize Hcc Hg Hin Hov Hf.
  assert (Henv : env_factors (environ_of self s) [] = Raise ValueError).
  { apply env_factors_malformed. eauto. }
  pose proof (read_config_outcome self config s) as Ho.
  destruct (read_config self config s) as [[r s'] t].
  inversion Ho as [| | |size' cc' e Hs' Hc' Hg' He'| | |]; subst; same_path.
  assert (e = ValueError) as -> by congruence.
  eexists. split; [reflexivity|]. repeat split.
Qed.

(** X9. Environment variables that are not per-cache overrides are never
    read: the per-cache factors of the environment, and whether reading
    them raises, are those of the override variables alone. *)
Theorem X9_only_override_variables_are_read (vars : list (string * string))
  (acc : list (string * pyval)) :
  env_factors vars acc
  = env_factors (List.filter (fun kv => is_override (fst kv)) vars) acc.
Proof.
  revert acc. induction vars as [|[key val] vars IH]; intros acc; [reflexivity|].
  simpl List.filter. rewrite env_factors_cons.
  destruct (is_override key) eqn:Hov.
  - rewrite env_factors_cons, Hov.
    destruct (float_of_str val); [apply IH|reflexivity].
  - apply IH.
Qed.

Lemma plain_resolve (n : string) : forall (merged : list (string * pyval)) init,
  Str.lower n = n ->
  plain n merged ->
  resolve n merged init
  = match Dict.get merged n with Some x => Some x | None => init end.
Proof.
  induction merged as [|[k v] merged IH]; intros init Hn [Hnd Hplain];
    [reflexivity|].
  simpl in Hnd. apply NoDup_cons in Hnd as [Hnot Hnd].
  assert (Hrest : plain n merged).
  { split; [exact Hnd|]. intros k' Hin. apply Hplain. apply elem_of_cons. auto. }
  rewrite resolve_cons. simpl.
  destruct (String.eqb_spec (Str.lower k) n) as [Hk|Hk].
  - assert (k = n) as -> by (apply Hplain; [apply elem_of_cons; auto|exact Hk]).
    rewrite String.eqb_refl. apply resolve_none.
    intros k' v' Hin Hk'. apply Hnot.
    assert (k' = n) as <-; [|eapply key_of_elem, Hin].
    apply Hplain; [|exact Hk']. apply elem_of_cons. right.
    eapply key_of_elem, Hin.
  - destruct (String.eqb_spec k n) as [->|_]; [congruence|].
    apply IH; assumption.
Qed.

(** What the environment leaves under [n] when every override variable for
    [n] carries the float [f]. *)
Lemma env_factors_get (n : string) (f : float) (vars : list (string * string)) :
  forall (acc envd : list (string * pyval)),
  env_factors vars acc = Ok envd ->
  (forall key val, (key, val) ∈ vars -> is_override key = true ->
     env_name key = n -> float_of_str val = Some f) ->
  Dict.get acc n = Some (PyFloat f) \/
  (exists key val, (key, val) ∈ vars /\ is_override key = true /\ env_name key = n) ->
  Dict.get envd n = Some (PyFloat f).
Proof.
  induction vars as [|[key val] vars IH]; intros acc envd Henv Hsame Hex.
  - injection Henv as <-. destruct Hex as [Hacc|(k & v & Hin & _)]; [exact Hacc|].
    apply elem_of_nil in Hin. contradiction.
  - rewrite env_factors_cons in Henv.
    assert (Hsame' : forall key' val', (key', val') ∈ vars ->
              is_override key' = true -> env_name key' = n ->
              float_of_str val' = Some f).
    { intros key' val' Hin. apply Hsame. apply elem_of_cons. auto. }
    destruct (is_override key) eqn:Hov.
    + destruct (float_of_str val) as [f0|] eqn:Hf; [|discriminate].
      apply (IH _ _ Henv Hsame').
      destruct (String.eqb_spec (env_name key) n) as [Hn|Hn].
      * left. rewrite <- Hn, get_set_same.
        rewrite (Hsame key val) in Hf; [congruence|apply elem_of_cons; auto|
                                          exact Hov|exact Hn].
      * destruct Hex as [Hacc|(k & v & Hin & Hov' & Hk)].
        -- left. rewrite get_set_other by exact Hn. exact Hacc.
        -- apply elem_of_cons in Hin as [[= -> ->]|Hin]; [congruence|].
           right. exists k, v. auto.
    + apply (IH _ _ Henv Hsame').
      destruct Hex as [Hacc|(k & v & Hin & Hov' & Hk)]; [auto|].
      apply elem_of_cons in Hin as [[= -> ->]|Hin]; [congruence|].
      right. exists k, v. auto.
Qed.

Lemma override_variable (x : string) :
  is_override (_CACHE_PREFIX ++ "_" ++ x) = true /\
  env_name (_CACHE_PREFIX ++ "_" ++ x) = Str.lower x.
Proof. split; reflexivity. Qed.

(** X10. The environment variable [SYNAPSE_CACHE_FACTOR_<X>] sets the
    factor of the cache [x.lower()]: when no key of the file configuration
    lower-cases to that name (and the variables for that name agree on the
    float), a load that completes stores the float under the name and calls
    the cache registered under it with that float. *)
Theorem X10_environment_override_applies self config s s' t
  (x val : string) (f : float) :
  NoDup (Dict.keys (_CACHES s)) ->
  read_config self config s = (Ok tt, s', t) ->
  ((_CACHE_PREFIX ++ "_" ++ x)%string, val) ∈ environ_of self s ->
  (forall key' val', (key', val') ∈ environ_of self s ->
     is_override key' = true -> env_name key' = Str.lower x ->
     float_of_str val' = Some f) ->
  (forall cc d, cache_config config = PyDict cc ->
     individual_factors_config cc = PyDict d ->
     forall k, k ∈ Dict.keys d -> Str.lower k <> Str.lower x) ->
  float_of_str val = Some f /\
  exists m,
    cache_factors (deref self s') = Some m /\
    Dict.get m (Str.lower x) = Some (PyFloat f) /\
    forall cb, (Str.lower x, cb) ∈ _CACHES s ->
      calls_to (Str.lower x) t = [Resize (Str.lower x) cb (PyFloat f)].
Proof.
  intros Hnd Hrun Hin Hsame Hfile.
  destruct (override_variable x) as [Hov Hname].
  split; [apply (Hsame _ _ Hin Hov Hname)|].
  pose proof (read_config_outcome self config s) as Ho. rewrite Hrun in Ho.
  inversion Ho as [| | | | | |size cc envd d Hsize Hcc Hg Henv Hd Hall]. subst.
  specialize (Hfile cc d Hcc Hd).
  set (n := Str.lower x) in *.
  assert (Hn : Str.lower n = n) by apply lower_idemp.
  assert (Hnot : n ∉ Dict.keys d).
  { intros Hk. apply (Hfile n Hk Hn). }
  assert (Hget : Dict.get (Dict.update envd d) n = Some (PyFloat f)).
  { rewrite get_update_absent by exact Hnot.
    apply (env_factors_get n f _ [] envd Henv Hsame).
    right. exists (_CACHE_PREFIX ++ "_" ++ x)%string, val. auto. }
  assert (Hplain : plain n (Dict.update envd d)).
  { destruct (env_factors_keys _ _ _ Henv) as [Hnde Hkeys]; [constructor|].
    split; [apply update_NoDup, Hnde|].
    intros k Hk Hlow. apply keys_update in Hk as [Hk|Hk].
    - destruct (Hkeys k Hk) as [Hnil|(key & v & _ & _ & ->)].
      + apply elem_of_nil in Hnil. contradiction.
      + unfold env_name in *. rewrite lower_idemp in Hlow. exact Hlow.
    - exfalso. apply (Hfile k Hk Hlow). }
  assert (Hm : Dict.get (normalised (Dict.update envd d) []) n = Some (PyFloat f)).
  { rewrite get_normalised, (plain_resolve n _ _ Hn Hplain), Hget. reflexivity. }
  eexists. rewrite deref_stage_same. simpl. split; [reflexivity|].
  split; [exact Hm|]. intros cb Hcb.
  rewrite (calls_to_resize_all _ _ _ n cb Hnd Hcb).
  unfold Dict.get_default. rewrite Hm. reflexivity.
Qed.

(** X11. A [caches] section that is present and is not a mapping (a null
    section, a sequence, a string) makes the load raise [AttributeError]:
    [event_cache_size] is already stored on [self], and the global factor,
    the per-cache factors, the default factor, the registry and the
    installed closure are as before. *)
Theorem X11_caches_section_must_be_mapping self config s size (v : pyval) :
  parse_size (size_arg config) = Some size ->
  Dict.get config "caches" = Some v ->
  is_dict v = false ->
  exists s',
    read_config self config s = (Raise AttributeError, s', []) /\
    event_cache_size (deref self s') = Some size /\
    global_factor (deref self s') = global_factor (deref self s) /\
    cache_factors (deref self s') = cache_factors (deref self s) /\
    DEFAULT_CACHE_SIZE_FACTOR s' = DEFAULT_CACHE_SIZE_FACTOR s /\
    _ENSURE_CORRECT_CACHE_SIZING s' = _ENSURE_CORRECT_CACHE_SIZING s /\
    _CACHES s' = _CACHES s.
Proof.
  intros Hsize Hv Hnd.
  assert (Hcc : cache_config config = v).
  { unfold cache_config, Dict.get_default. rewrite Hv. reflexivity. }
  pose proof (read_config_outcome self config s) as Ho.
  destruct (read_config self config s) as [[r s'] t].
  inversion Ho; subst; same_path;
    try (match goal with
         | Hc : cache_config config = PyDict _ |- _ =>
             rewrite Hc in Hnd; discriminate
         end).
  eexists. split; [reflexivity|]. rewrite deref_stage_same. repeat split.
Qed.

(** X12. A configuration without a [caches] section loads with the
    process-wide default factor as global factor and the environment
    overrides as only per-cache factors; the default factor stays what it
    was. *)
Theorem X12_missing_caches_section_uses_defaults self config s size
  (envd : list (string * pyval)) :
  parse_size (size_arg config) = Some size ->
  Dict.get config "caches" = None ->
  is_number (DEFAULT_CACHE_SIZE_FACTOR s) = true ->
  env_factors (environ_of self s) [] = Ok envd ->
  exists s',
    read_config self config s
    = (Ok tt, s',
       resize_all (normalised envd []) (DEFAULT_CACHE_SIZE_FACTOR s) (_CACHES s)) /\
    global_factor (deref self s') = Some (DEFAULT_CACHE_SIZE_FACTOR s) /\
    cache_factors (deref self s') = Some (normalised envd []) /\
    DEFAULT_CACHE_SIZE_FACTOR s' = DEFAULT_CACHE_SIZE_FACTOR s.
Proof.
  intros Hsize Hnone Hnum Henv.
  assert (Hcc : cache_config config = PyDict []).
  { unfold cache_config, Dict.get_default. rewrite Hnone. reflexivity. }
  eexists. split.
  - apply (load_completes self config s size [] envd []); try assumption.
    + reflexivity.
    + apply (merged_numeric _ envd [] Henv). intros k v Hin.
      apply elem_of_nil in Hin. contradiction.
  - rewrite deref_stage_same. repeat split.
Qed.

Lemma default_numeric_perform (act : op) s r s' t :
  is_number (DEFAULT_CACHE_SIZE_FACTOR s) = true ->
  perform act s = (r, s', t) ->
  is_number (DEFAULT_CACHE_SIZE_FACTOR s') = true.
Proof.
  intros Hnum Hrun. destruct act as [n cb|self config|]; simpl in Hrun.
  - pose proof (add_resizable_cache_state n cb s) as Hs.
    rewrite Hrun in Hs. simpl in Hs. subst s'. exact Hnum.
  - pose proof (read_config_outcome self config s) as Ho. rewrite Hrun in Ho.
    inversion Ho; subst; assumption.
  - destruct (default_factor_from (os_environ s)) as [f|e] eqn:Hf.
    + rewrite (_reset_ok s f Hf) in Hrun. injection Hrun as <- <- <-. reflexivity.
    + rewrite (_reset_raise s e Hf) in Hrun. injection Hrun as <- <- <-.
      exact Hnum.
Qed.

(** X13. The process-wide default factor is a number in every state the
    module reaches from its import: no failed load leaves a value there
    that did not pass the number check. *)
Theorem X13_default_factor_is_always_a_number
  (env : list (string * string)) (h : gmap obj CacheConfig)
  (ops : list op) s0 s (t : list call) :
  import_module env h = Ok s0 ->
  run ops s0 = (s, t) ->
  is_number (DEFAULT_CACHE_SIZE_FACTOR s) = true.
Proof.
  intros Himp Hrun.
  assert (H0' : is_number (DEFAULT_CACHE_SIZE_FACTOR s0) = true).
  { unfold import_module in Himp.
    destruct (default_factor_from env); [|discriminate].
    injection Himp as <-. reflexivity. }
  clear Himp. revert s0 s t Hrun H0'.
  induction ops as [|act ops IH]; intros s0 s t Hrun Hnum; simpl in Hrun.
  - injection Hrun as <- <-. exact Hnum.
  - destruct (perform act s0) as [[r s1] t1] eqn:Hstep.
    destruct (run ops s1) as [s2 t2] eqn:Hrest.
    injection Hrun as <- <-.
    apply (IH s1 s2 t2 Hrest).
    apply (default_numeric_perform act s0 r s1 t1 Hnum Hstep).
Qed.

(** X14. [_reset] takes the module back to its import: in a process whose
    import succeeded, after any operations, it returns and leaves the
    globals of the fresh import, with the configuration objects
    untouched. *)
Theorem X14_reset_restores_import
  (env : list (string * string)) (h : gmap obj CacheConfig)
  (ops : list op) s0 s (t : list call) :
  import_module env h = Ok s0 ->
  run ops s0 = (s, t) ->
  _reset s = (Ok tt, with_heap (heap s) s0, []).
Proof.
  intros Himp Hrun. pose proof (os_environ_run ops s0 s t Hrun) as Henv.
  unfold import_module in Himp.
  destruct (default_factor_from env) as [f|e] eqn:Hf; [|discriminate].
  injection Himp as <-. simpl in Henv.
  rewrite (_reset_ok s f) by (rewrite Henv; exact Hf).
  unfold with_heap. simpl. rewrite Henv. reflexivity.
Qed.

Lemma env_factors_elem (vars : list (string * string)) :
  forall (acc envd : list (string * pyval)) k v,
  env_factors vars acc = Ok envd ->
  (k, v) ∈ envd ->
  (k, v) ∈ acc \/
  exists key val f,
    (key, val) ∈ vars /\ is_override key = true /\ env_name key = k /\
    float_of_str val = Some f /\ v = PyFloat f.
Proof.
  induction vars as [|[key val] vars IH]; intros acc envd k v Henv Hin.
  - injection Henv as <-. auto.
  - rewrite env_factors_cons in Henv. destruct (is_override key) eqn:Hov.
    + destruct (float_of_str val) as [f|] eqn:Hf; [|discriminate].
      destruct (IH _ _ _ _ Henv Hin) as [Hacc|(key' & val' & f' & Hin' & Hrest)].
      * apply elem_of_set in Hacc as [[-> ->]|Hacc]; [|auto].
        right. exists key, val, f. split; [apply elem_of_cons; auto|auto].
      * right. exists key', val', f'. split; [apply elem_of_cons; auto|exact Hrest].
    + destruct (IH _ _ _ _ Henv Hin) as [Hacc|(key' & val' & f' & Hin' & Hrest)];
        [auto|].
      right. exists key', val', f'. split; [apply elem_of_cons; auto|exact Hrest].
Qed.

Lemma elem_of_normalised (items : list (string * pyval)) :
  forall (acc : list (string * pyval)) k v,
  (k, v) ∈ normalised items acc ->
  (k, v) ∈ acc \/ exists k0, (k0, v) ∈ items /\ k = Str.lower k0.
Proof.
  unfold normalised.
  induction items as [|[k0 v0] items IH]; intros acc k v Hin; simpl in Hin;
    [auto|].
  apply IH in Hin as [Hin|(k1 & Hin & ->)].
  - apply elem_of_set in Hin as [[-> ->]|Hin]; [|auto].
    right. exists k0. split; [apply elem_of_cons; auto|reflexivity].
  - right. exists k1. split; [apply elem_of_cons; auto|reflexivity].
Qed.

Lemma normalised_NoDup (items : list (string * pyval)) :
  forall (acc : list (string * pyval)),
  NoDup (Dict.keys acc) -> NoDup (Dict.keys (normalised items acc)).
Proof.
  unfold normalised.
  induction items as [|[k0 v0] items IH]; intros acc Hnd; simpl; [exact Hnd|].
  apply IH, keys_set_NoDup, Hnd.
Qed.

(** X15. The per-cache mapping a completed load stores on [self] has
    distinct, lower-case names and only numbers as values, each one the
    value of an environment override or of a file entry for that name. *)
Theorem X15_stored_factors_are_normalised self config s s' t :
  read_config self config s = (Ok tt, s', t) ->
  exists m,
    cache_factors (deref self s') = Some m /\
    NoDup (Dict.keys m) /\
    forall k v, (k, v) ∈ m ->
      Str.lower k = k /\ is_number v = true /\
      ((exists key val f, (key, val) ∈ environ_of self s /\
          is_override key = true /\ env_name key = k /\
          float_of_str val = Some f /\ v = PyFloat f) \/
       (exists cc d k0, cache_config config = PyDict cc /\
          individual_factors_config cc = PyDict d /\
          (k0, v) ∈ d /\ Str.lower k0 = k)).
Proof.
  intros Hrun. pose proof (read_config_outcome self config s) as Ho.
  rewrite Hrun in Ho.
  inversion Ho as [| | | | | |size cc envd d Hsize Hcc Hg Henv Hd Hall]. subst.
  eexists. rewrite deref_stage_same. simpl. split; [reflexivity|].
  split; [apply normalised_NoDup; constructor|].
  intros k v Hin. apply elem_of_normalised in Hin as [Hin|(k0 & Hin & ->)].
  { apply elem_of_nil in Hin. contradiction. }
  split; [apply lower_idemp|]. split.
  { rewrite Forall_forall in Hall. apply (Hall (k0, v) Hin). }
  apply elem_update in Hin as [Hin|Hin].
  - left.
    destruct (env_factors_elem _ _ _ _ _ Henv Hin)
      as [Hnil|(key & val & f & Hin' & Hov & <- & Hf & ->)].
    { apply elem_of_nil in Hnil. contradiction. }
    exists key, val, f. split; [exact Hin'|]. split; [exact Hov|].
    split; [|auto]. unfold env_name. rewrite lower_idemp. reflexivity.
  - right. exists cc, d, k0. auto.
Qed.

(** X16. In every state the module reaches from its import the registry
    names are distinct and lower-case, so a cache is registered at most
    once whatever the letter case of the names it was registered under. *)
Theorem X16_registry_names_are_lower_case
  (env : list (string * string)) (h : gmap obj CacheConfig)
  (ops : list op) s0 s (t : list call) :
  import_module env h = Ok s0 ->
  run ops s0 = (s, t) ->
  NoDup (Dict.keys (_CACHES s)) /\
  forall k, k ∈ Dict.keys (_CACHES s) -> Str.lower k = k.
Proof.
  intros Himp Hrun.
  split; [eapply (consistent_reachable env h s0 ops s t); eassumption|].
  assert (H0' : forall k, k ∈ Dict.keys (_CACHES s0) -> Str.lower k = k).
  { unfold import_module in Himp.
    destruct (default_factor_from env); [|discriminate].
    injection Himp as <-. simpl. intros k Hk. apply elem_of_nil in Hk.
    contradiction. }
  clear Himp. revert s0 s t Hrun H0'.
  induction ops as [|act ops IH]; intros s0 s t Hrun Hlow; simpl in Hrun.
  - injection Hrun as <- <-. exact Hlow.
  - destruct (perform act s0) as [[r s1] t1] eqn:Hstep.
    destruct (run ops s1) as [s2 t2] eqn:Hrest.
    injection Hrun as <- <-. apply (IH s1 s2 t2 Hrest).
    destruct act as [n cb|self config|]; simpl in Hstep.
    + pose proof (add_resizable_cache_state n cb s0) as Hs.
      rewrite Hstep in Hs. simpl in Hs. subst s1. simpl.
      intros k Hk. apply keys_set in Hk as [->|Hk]; [apply lower_idemp|auto].
    + destruct (read_config_frame _ _ _ _ _ _ Hstep) as (Hreg & _ & _).
      rewrite Hreg. exact Hlow.
    + destruct (default_factor_from (os_environ s0)) as [f|e] eqn:Hf.
      * rewrite (_reset_ok s0 f Hf) in Hstep. injection Hstep as _ <- _.
        simpl. intros k Hk. apply elem_of_nil in Hk. contradiction.
      * rewrite (_reset_raise s0 e Hf) in Hstep. injection Hstep as _ <- _.
        exact Hlow.
Qed.

End More.

Import Demo.

(** ** Examples *)

Example import_without_variable :
  import_module Demo.environment ∅ = Ok (Demo.fresh Demo.environment) /\
  DEFAULT_CACHE_SIZE_FACTOR (Demo.fresh Demo.environment) = PyFloat (1 # 2)%Q.
Proof. split; reflexivity. Qed.

Example import_with_variable :
  DEFAULT_CACHE_SIZE_FACTOR (Demo.fresh [("SYNAPSE_CACHE_FACTOR", "2")])
  = PyFloat (inject_Z 2).
Proof. reflexivity. Qed.

Example lower_example : Str.lower "Get_Users" = "get_users".
Proof. reflexivity. Qed.

Example env_factors_example :
  env_factors Demo.environment [] = Ok Demo.env_overrides.
Proof. reflexivity. Qed.

Example registrations_before_load :
  run [Register "Get_Users" 7; Register "other" 8; Register "plain" 9]
    (Demo.fresh Demo.environment)
  = (Demo.three_caches, []) /\
  _CACHES Demo.three_caches = [("get_users", 7); ("other", 8); ("plain", 9)].
Proof. split; vm_compute; reflexivity. Qed.

Example file_over_env_load :
  read_config 1 Demo.file_over_env Demo.three_caches
  = (Ok tt, Demo.after [Load 1 Demo.file_over_env] Demo.three_caches,
     Demo.file_over_env_calls).
Proof. vm_compute. reflexivity. Qed.

Example reregistration_replaces_callback :
  _CACHES (Demo.after [Register "PLAIN" 10] Demo.three_caches)
  = [("get_users", 7); ("other", 8); ("plain", 10)].
Proof. vm_compute. reflexivity. Qed.

(** ** The statements above on concrete runs *)

Lemma C1_witness :
  NoDup (Dict.keys (_CACHES Demo.three_caches)) /\
  read_config 1 Demo.file_over_env Demo.three_caches
  = (Ok tt, Demo.after [Load 1 Demo.file_over_env] Demo.three_caches,
     Demo.file_over_env_calls) /\
  exists m g,
    Demo.file_over_env_calls = resize_all m g (_CACHES Demo.three_caches) /\
    calls_to "plain" Demo.file_over_env_calls = [Resize "plain" 9 g].
Proof.
  assert (Hnd : NoDup (Dict.keys (_CACHES Demo.three_caches))) by compute_done.
  assert (Hrun : read_config 1 Demo.file_over_env Demo.three_caches
                 = (Ok tt, Demo.after [Load 1 Demo.file_over_env] Demo.three_caches,
                    Demo.file_over_env_calls)) by (vm_compute; reflexivity).
  split; [exact Hnd|]. split; [exact Hrun|].
  destruct (C1_load_resizes_each_cache_once _ _ _ _ _ Hnd Hrun)
    as (cc & d & envd & m & g & Hcc & Hd & Henv & _ & _ & _ & _ & _ & Ht & _ & Hplain).
  exists m, g. split; [exact Ht|].
  injection Hcc as <-. injection Hd as <-.
  apply (Hplain "plain" 9).
  - compute_done.
  - intros k Hk Hlow. apply list_elem_of_singleton in Hk. subst k. discriminate.
  - intros key val Hin Hov.
    repeat (apply elem_of_cons in Hin as [[= -> ->]|Hin]; [discriminate|]).
    apply elem_of_nil in Hin. contradiction.
Defined.

Lemma C2_witness :
  NoDup (Dict.keys (_CACHES Demo.three_caches)) /\
  read_config 1 Demo.file_over_env Demo.three_caches
  = (Ok tt, Demo.after [Load 1 Demo.file_over_env] Demo.three_caches,
     Demo.file_over_env_calls) /\
  calls_to "get_users" Demo.file_over_env_calls
  = [Resize "get_users" 7 (PyInt 2)].
Proof.
  assert (Hnd : NoDup (Dict.keys (_CACHES Demo.three_caches))) by compute_done.
  assert (Hrun : read_config 1 Demo.file_over_env Demo.three_caches
                 = (Ok tt, Demo.after [Load 1 Demo.file_over_env] Demo.three_caches,
                    Demo.file_over_env_calls)) by (vm_compute; reflexivity).
  split; [exact Hnd|]. split; [exact Hrun|].
  destruct (C2_file_entry_beats_environment 1 Demo.file_over_env
              Demo.three_caches _ _
              [("per_cache_factors", PyDict [("Get_Users", PyInt 2)])]
              [("Get_Users", PyInt 2)] "get_users" Hnd Hrun eq_refl eq_refl)
    as (m & x & _ & _ & _ & Hsame & Hcalls).
  - exists "Get_Users", (PyInt 2). split; [apply list_elem_of_here|reflexivity].
  - rewrite (Hcalls 7) by compute_done. f_equal. f_equal.
    apply Hsame. intros k' v' Hin _.
    apply list_elem_of_singleton in Hin. congruence.
Defined.

Lemma C3_witness :
  read_config 1 Demo.sequence_factors Demo.three_caches
  = (Raise (ConfigError msg_not_a_dict),
     Demo.after [Load 1 Demo.sequence_factors] Demo.three_caches, []) /\
  DEFAULT_CACHE_SIZE_FACTOR Demo.three_caches = PyFloat (1 # 2)%Q /\
  DEFAULT_CACHE_SIZE_FACTOR
    (Demo.after [Load 1 Demo.sequence_factors] Demo.three_caches) = PyInt 4 /\
  _CACHES (Demo.after [Load 1 Demo.sequence_factors] Demo.three_caches)
  = _CACHES Demo.three_caches.
Proof.
  assert (Hrun : read_config 1 Demo.sequence_factors Demo.three_caches
                 = (Raise (ConfigError msg_not_a_dict),
                    Demo.after [Load 1 Demo.sequence_factors] Demo.three_caches, []))
    by (vm_compute; reflexivity).
  split; [exact Hrun|]. split; [reflexivity|].
  destruct (C3_failed_load_keeps_overwritten_default _ _ _ _ _ _ Hrun
              (or_introl eq_refl)) as (cc & Hcc & Hdflt & Hreg & _ & _).
  split; [|exact Hreg].
  rewrite Hdflt. injection Hcc as <-. reflexivity.
Defined.

Lemma C4_witness :
  Dict.get Demo.sequence_factors "caches"
  = Some (PyDict [("global_factor", PyInt 4);
                  ("per_cache_factors", PyList [PyInt 1; PyInt 2; PyInt 3])]) /\
  is_dict (PyList [PyInt 1; PyInt 2; PyInt 3]) = false /\
  truthy (PyList [PyInt 1; PyInt 2; PyInt 3]) = true /\
  exists s',
    read_config 1 Demo.sequence_factors Demo.three_caches
    = (Raise (ConfigError msg_not_a_dict), s', []).
Proof.
  split; [reflexivity|]. split; [reflexivity|]. split; [reflexivity|].
  destruct (C4_non_mapping_rejected_when_truthy 1 Demo.sequence_factors
              Demo.three_caches
              [("global_factor", PyInt 4);
               ("per_cache_factors", PyList [PyInt 1; PyInt 2; PyInt 3])]
              (PyList [PyInt 1; PyInt 2; PyInt 3]) eq_refl eq_refl eq_refl)
    as [Htrue _].
  destruct (Htrue eq_refl) as [_ Hmsg].
  eapply Hmsg; vm_compute; reflexivity.
Defined.

Lemma C5_witness :
  consistent
    (Demo.after [Load 1 Demo.file_over_env; Register "late" 11; Load 2 Demo.fast]
       Demo.three_caches) /\
  _ENSURE_CORRECT_CACHE_SIZING
    (Demo.after [Load 1 Demo.file_over_env; Register "late" 11; Load 2 Demo.fast]
       Demo.three_caches) = Some 1 /\
  exists s' t,
    add_resizable_cache "GET_USERS" 12
      (Demo.after [Load 1 Demo.file_over_env; Register "late" 11; Load 2 Demo.fast]
         Demo.three_caches)
    = (Ok tt, s', t) /\
    calls_to "get_users" t = [Resize "get_users" 12 (PyInt 2)] /\
    calls_to "late" t = [Resize "late" 11 (PyFloat (1 # 2)%Q)].
Proof.
  assert (Hc : consistent
                 (Demo.after [Load 1 Demo.file_over_env; Register "late" 11;
                              Load 2 Demo.fast] Demo.three_caches)).
  { apply (consistent_run
             [Register "Get_Users" 7; Register "other" 8; Register "plain" 9;
              Load 1 Demo.file_over_env; Register "late" 11; Load 2 Demo.fast]
             (Demo.fresh Demo.environment) _
             (Demo.file_over_env_calls
                ++ Demo.file_over_env_calls ++ Demo.late_call)).
    - apply (consistent_import Demo.environment ∅). reflexivity.
    - vm_compute. reflexivity. }
  assert (Hens : _ENSURE_CORRECT_CACHE_SIZING
                   (Demo.after [Load 1 Demo.file_over_env; Register "late" 11;
                                Load 2 Demo.fast] Demo.three_caches) = Some 1)
    by (vm_compute; reflexivity).
  split; [exact Hc|]. split; [exact Hens|].
  destruct (C5_registration_resyncs_registry 1 _ "GET_USERS" 12 Hc Hens)
    as (m & g & reg & Hm & Hg & -> & Hadd & _ & _ & Hcalls & Hsame).
  destruct (Hsame Demo.file_over_env Demo.three_caches
              (Demo.after [Load 1 Demo.file_over_env] Demo.three_caches)
              Demo.file_over_env_calls
              [Register "late" 11; Load 2 Demo.fast]
              (Demo.file_over_env_calls ++ Demo.late_call))
    as [Hm1 Hg1]; try (vm_compute; reflexivity).
  eexists _, _. split; [exact Hadd|].
  vm_compute in Hm1, Hg1. injection Hm1 as <-. injection Hg1 as <-.
  split.
  - rewrite (Hcalls "get_users" 12) by compute_done. reflexivity.
  - rewrite (Hcalls "late" 11) by compute_done. reflexivity.
Defined.

Lemma C6_witness :
  _ENSURE_CORRECT_CACHE_SIZING (Demo.fresh Demo.environment) = None /\
  no_load_succeeds Demo.early_ops (Demo.fresh Demo.environment) = true /\
  run Demo.early_ops (Demo.fresh Demo.environment)
  = (Demo.after Demo.early_ops (Demo.fresh Demo.environment), []) /\
  _CACHES (Demo.after Demo.early_ops (Demo.fresh Demo.environment))
  = [("plain", 9)].
Proof.
  split; [reflexivity|]. split; [vm_compute; reflexivity|].
  split; [|vm_compute; reflexivity].
  destruct (run Demo.early_ops (Demo.fresh Demo.environment)) as [s' t] eqn:Hrun.
  destruct (C6_no_resize_before_first_load Demo.early_ops
              (Demo.fresh Demo.environment) s' t eq_refl) as (Ht & _ & _).
  - vm_compute. reflexivity.
  - exact Hrun.
  - unfold Demo.after. rewrite Hrun, Ht. reflexivity.
Defined.

Lemma C7_witness :
  Dict.get Demo.fast "caches" = Some (PyDict [("global_factor", PyStr "fast")]) /\
  is_number (PyStr "fast") = false /\
  parse_size (size_arg Demo.fast) = Some 10240%Z /\
  exists s',
    read_config 1 Demo.fast
      (Demo.after [Load 2 Demo.file_over_env] Demo.three_caches)
    = (Raise (ConfigError msg_global_factor), s', []) /\
    _ENSURE_CORRECT_CACHE_SIZING s' = Some 2 /\
    DEFAULT_CACHE_SIZE_FACTOR s' = PyFloat (1 # 2)%Q.
Proof.
  assert (Hcc : Dict.get Demo.fast "caches"
                = Some (PyDict [("global_factor", PyStr "fast")])) by reflexivity.
  assert (Hv : Dict.get [("global_factor", PyStr "fast")] "global_factor"
               = Some (PyStr "fast")) by reflexivity.
  assert (Hn : is_number (PyStr "fast") = false) by reflexivity.
  assert (Hsize : parse_size (size_arg Demo.fast) = Some 10240%Z) by reflexivity.
  split; [exact Hcc|]. split; [exact Hn|]. split; [exact Hsize|].
  destruct (C7_global_factor_must_be_number 1 Demo.fast
              (Demo.after [Load 2 Demo.file_over_env] Demo.three_caches)
              _ _ Hcc Hv Hn) as (_ & Hmsg & _).
  destruct (Hmsg _ Hsize) as (s' & Hrun & Hens & _ & Hdflt & _).
  exists s'. split; [exact Hrun|]. split.
  - rewrite Hens. vm_compute. reflexivity.
  - rewrite Hdflt. vm_compute. reflexivity.
Defined.

Lemma C8_witness :
  Dict.get Demo.bad_entry "caches"
  = Some (PyDict [("per_cache_factors", PyDict [("ok", PyInt 1); ("A", PyStr "x")])]) /\
  NoDup (Dict.keys [("ok", PyInt 1); ("A", PyStr "x")]) /\
  is_number (PyStr "x") = false /\
  exists s',
    read_config 1 Demo.bad_entry Demo.three_caches
    = (Raise (ConfigError "caches.per_cache_factors.a must be a number"), s', []).
Proof.
  split; [reflexivity|].
  assert (Hnd : NoDup (Dict.keys [("ok", PyInt 1); ("A", PyStr "x")]))
    by compute_done.
  split; [exact Hnd|]. split; [reflexivity|].
  destruct (C8_per_cache_factor_must_be_number 1 Demo.bad_entry Demo.three_caches
              [("per_cache_factors", PyDict [("ok", PyInt 1); ("A", PyStr "x")])]
              [("ok", PyInt 1); ("A", PyStr "x")] "A" (PyStr "x")
              eq_refl eq_refl Hnd) as [_ Hmsg].
  - apply list_elem_of_further, list_elem_of_here.
  - reflexivity.
  - edestruct Hmsg as (k' & v' & s' & Hin & Hv' & Hrun);
      [vm_compute; reflexivity..|].
    exists s'. rewrite Hrun. f_equal. f_equal. f_equal. f_equal.
    apply elem_of_cons in Hin as [[= -> ->]|Hin]; [discriminate|].
    apply list_elem_of_singleton in Hin. injection Hin as -> ->. reflexivity.
Defined.

Lemma C9_witness :
  default_factor_from
    (os_environ (Demo.after [Register "a" 7; Load 1 Demo.two]
                   (Demo.fresh [("SYNAPSE_CACHE_FACTOR", "3")])))
  = Ok (inject_Z 3) /\
  _CACHES (Demo.after [Register "a" 7; Load 1 Demo.two]
             (Demo.fresh [("SYNAPSE_CACHE_FACTOR", "3")])) = [("a", 7)] /\
  DEFAULT_CACHE_SIZE_FACTOR
    (Demo.after [Register "a" 7; Load 1 Demo.two]
       (Demo.fresh [("SYNAPSE_CACHE_FACTOR", "3")])) = PyInt 2 /\
  exists s',
    _reset (Demo.after [Register "a" 7; Load 1 Demo.two]
              (Demo.fresh [("SYNAPSE_CACHE_FACTOR", "3")]))
    = (Ok tt, s', []) /\
    _CACHES s' = [] /\
    _ENSURE_CORRECT_CACHE_SIZING s' = None /\
    DEFAULT_CACHE_SIZE_FACTOR s' = PyFloat (inject_Z 3) /\
    snd (run [Register "b" 8] s') = [].
Proof.
  split; [reflexivity|]. split; [vm_compute; reflexivity|].
  split; [vm_compute; reflexivity|].
  destruct (C9_reset_clears_registry_and_closure
              (Demo.after [Register "a" 7; Load 1 Demo.two]
                 (Demo.fresh [("SYNAPSE_CACHE_FACTOR", "3")]))
              (inject_Z 3) eq_refl)
    as (s' & Hrun & Hreg & Hens & Hdflt & _ & _ & Hsilent).
  exists s'. repeat (split; [assumption|]).
  destruct (run [Register "b" 8] s') as [s'' t] eqn:Hops.
  apply (Hsilent [Register "b" 8] s'' t); [|exact Hops].
  simpl. destruct (add_resizable_cache "b" 8 s') as [[r s1] t1]. reflexivity.
Defined.

Lemma C10_witness :
  NoDup (Dict.keys (_CACHES Demo.three_caches)) /\
  parse_size (size_arg Demo.booleans) = Some 10240%Z /\
  is_number (PyBool true) = true /\
  is_number (PyBool false) = true /\
  exists s' t,
    read_config 1 Demo.booleans Demo.three_caches = (Ok tt, s', t) /\
    DEFAULT_CACHE_SIZE_FACTOR s' = PyBool true /\
    calls_to "plain" t = [Resize "plain" 9 (PyBool true)] /\
    calls_to "get_users" t = [Resize "get_users" 7 (PyBool false)].
Proof.
  assert (Hnd : NoDup (Dict.keys (_CACHES Demo.three_caches))) by compute_done.
  assert (Hsize : parse_size (size_arg Demo.booleans) = Some 10240%Z)
    by reflexivity.
  split; [exact Hnd|]. split; [exact Hsize|].
  split; [reflexivity|]. split; [reflexivity|].
  edestruct (C10_booleans_pass_as_numbers 1 Demo.booleans Demo.three_caches
               10240%Z
               [("global_factor", PyBool true);
                ("per_cache_factors", PyDict [("Get_Users", PyBool false)])]
               Demo.env_overrides [("Get_Users", PyBool false)]
               Hnd Hsize eq_refl)
    as (_ & _ & s' & t & Hrun & _ & Hdflt & Hplain & Hfile).
  - reflexivity.
  - vm_compute. reflexivity.
  - reflexivity.
  - intros k v Hin. apply list_elem_of_singleton in Hin. injection Hin as -> ->.
    reflexivity.
  - exists s', t. split; [exact Hrun|]. split; [exact Hdflt|]. split.
    + apply (Hplain "plain" 9 true).
      * reflexivity.
      * compute_done.
      * intros k Hk Hlow. apply list_elem_of_singleton in Hk. subst k. discriminate.
      * intros key val Hin Hov.
        repeat (apply elem_of_cons in Hin as [[= -> ->]|Hin]; [discriminate|]).
        apply elem_of_nil in Hin. contradiction.
    + apply (Hfile "get_users" 7 false).
      * compute_done.
      * exists "Get_Users". split; [apply list_elem_of_here|reflexivity].
      * intros k v Hin _. apply list_elem_of_singleton in Hin. congruence.
Defined.

(** ** Runs on which the statements of the specification fail *)

(** C2 as stated fails when two keys of the file configuration lower-case
    to the same name: the entry ["Foo"] carries 2, and the factor resolved
    for [foo] is 3. *)
Lemma C2_counterexample :
  Dict.get Demo.colliding "caches"
  = Some (PyDict [("per_cache_factors", PyDict [("Foo", PyInt 2); ("foo", PyInt 3)])]) /\
  ("Foo", PyInt 2) ∈ [("Foo", PyInt 2); ("foo", PyInt 3)] /\
  is_number (PyInt 2) = true /\
  read_config 1 Demo.colliding (Demo.after [Register "foo" 7] (Demo.fresh []))
  = (Ok tt,
     Demo.after [Register "foo" 7; Load 1 Demo.colliding] (Demo.fresh []),
     [Resize (Str.lower "Foo") 7 (PyInt 3)]) /\
  cache_factors
    (deref 1 (Demo.after [Register "foo" 7; Load 1 Demo.colliding] (Demo.fresh [])))
  = Some [(Str.lower "Foo", PyInt 3)] /\
  PyInt 3 <> PyInt 2.
Proof.
  split; [reflexivity|]. split; [apply list_elem_of_here|].
  split; [reflexivity|]. split; [vm_compute; reflexivity|].
  split; [vm_compute; reflexivity|]. discriminate.
Qed.

(** C4 as stated fails on a [per_cache_factors] that is not a mapping and is
    false in Python's sense: with the empty sequence the load completes. *)
Lemma C4_counterexample :
  Dict.get Demo.empty_sequence_factors "caches"
  = Some (PyDict [("per_cache_factors", PyList [])]) /\
  Dict.get [("per_cache_factors", PyList [])] "per_cache_factors"
  = Some (PyList []) /\
  is_dict (PyList []) = false /\
  read_config 1 Demo.empty_sequence_factors Demo.three_caches
  = (Ok tt,
     Demo.after [Load 1 Demo.empty_sequence_factors] Demo.three_caches,
     [Resize "get_users" 7 (PyFloat (inject_Z 5));
      Resize "other" 8 (PyFloat (inject_Z 5));
      Resize "plain" 9 (PyFloat (1 # 2)%Q)]).
Proof.
  split; [reflexivity|]. split; [reflexivity|]. split; [reflexivity|].
  vm_compute. reflexivity.
Qed.

(** C5 as stated fails after a failed second load on the configuration
    object whose closure is installed: the load of [global_factor = 2]
    completes, the load of [global_factor = "fast"] on the same object
    raises, and the registration that follows calls the new cache with
    ["fast"], not with the factor 2 of the resolved configuration. *)
Lemma C5_counterexample :
  read_config 1 Demo.two (Demo.fresh [])
  = (Ok tt, Demo.after [Load 1 Demo.two] (Demo.fresh []), []) /\
  global_factor (deref 1 (Demo.after [Load 1 Demo.two] (Demo.fresh [])))
  = Some (PyInt 2) /\
  cache_factors (deref 1 (Demo.after [Load 1 Demo.two] (Demo.fresh [])))
  = Some [] /\
  read_config 1 Demo.fast (Demo.after [Load 1 Demo.two] (Demo.fresh []))
  = (Raise (ConfigError msg_global_factor),
     Demo.after [Load 1 Demo.two; Load 1 Demo.fast] (Demo.fresh []), []) /\
  _ENSURE_CORRECT_CACHE_SIZING
    (Demo.after [Load 1 Demo.two; Load 1 Demo.fast] (Demo.fresh [])) = Some 1 /\
  add_resizable_cache "foo" 7
    (Demo.after [Load 1 Demo.two; Load 1 Demo.fast] (Demo.fresh []))
  = (Ok tt,
     Demo.after [Load 1 Demo.two; Load 1 Demo.fast; Register "foo" 7]
       (Demo.fresh []),
     [Resize "foo" 7 (PyStr "fast")]) /\
  PyStr "fast" <> Dict.get_default [] "foo" (PyInt 2).
Proof.
  repeat (split; [vm_compute; reflexivity|]). discriminate.
Qed.

(** C7 as stated fails when [event_cache_size] does not parse: line 70
    raises the error of the size parser before [caches.global_factor] is
    looked at, and the load does not fail with a [ConfigError]. *)
Lemma C7_counterexample :
  Dict.get Demo.bad_size_and_fast "caches"
  = Some (PyDict [("global_factor", PyStr "fast")]) /\
  Dict.get [("global_factor", PyStr "fast")] "global_factor"
  = Some (PyStr "fast") /\
  is_number (PyStr "fast") = false /\
  size_arg Demo.bad_size_and_fast = PyStr "abc" /\
  read_config 1 Demo.bad_size_and_fast Demo.three_caches
  = (Raise SizeError, Demo.three_caches, []) /\
  SizeError <> ConfigError msg_global_factor.
Proof.
  split; [reflexivity|]. split; [reflexivity|]. split; [reflexivity|].
  split; [reflexivity|]. split; [vm_compute; reflexivity|]. discriminate.
Qed.

(** C8 as stated fails when an earlier check stops the load: with a global
    factor that is not a number the error names [caches.global_factor], not
    the cache whose factor is not a number. *)
Lemma C8_counterexample :
  Dict.get Demo.fast_and_bad_entry "caches"
  = Some (PyDict [("global_factor", PyStr "fast");
                  ("per_cache_factors", PyDict [("a", PyStr "x")])]) /\
  ("a", PyStr "x") ∈ [("a", PyStr "x")] /\
  is_number (PyStr "x") = false /\
  read_config 1 Demo.fast_and_bad_entry Demo.three_caches
  = (Raise (ConfigError "caches.global_factor must be a number."),
     Demo.after [Load 1 Demo.fast_and_bad_entry] Demo.three_caches, []) /\
  "caches.global_factor must be a number."
  <> "caches.per_cache_factors.a must be a number".
Proof.
  split; [reflexivity|]. split; [apply list_elem_of_here|].
  split; [reflexivity|]. split; [vm_compute; reflexivity|]. discriminate.
Qed.

(** ** The further properties on concrete runs *)

Lemma X1_witness :
  add_resizable_cache "PLAIN" 10 Demo.three_caches
  = (Ok tt, Demo.after [Register "PLAIN" 10] Demo.three_caches, []) /\
  Dict.get (_CACHES (Demo.after [Register "PLAIN" 10] Demo.three_caches)) "plain"
  = Some 10 /\
  Dict.get (_CACHES (Demo.after [Register "PLAIN" 10] Demo.three_caches)) "other"
  = Dict.get (_CACHES Demo.three_caches) "other".
Proof.
  assert (Hrun : add_resizable_cache "PLAIN" 10 Demo.three_caches
                 = (Ok tt, Demo.after [Register "PLAIN" 10] Demo.three_caches, []))
    by (vm_compute; reflexivity).
  split; [exact Hrun|].
  destruct (X1_registration_stores_callback _ _ _ _ _ _ Hrun)
    as (Hget & _ & Hother & _).
  split; [exact Hget|]. apply Hother. discriminate.
Defined.

Lemma X2_witness :
  add_resizable_cache "PLAIN" 10 Demo.three_caches
  = (Ok tt, Demo.after [Register "PLAIN" 10] Demo.three_caches, []) /\
  Str.lower "PLAIN" ∈ Dict.keys (_CACHES Demo.three_caches) /\
  Dict.keys (_CACHES (Demo.after [Register "PLAIN" 10] Demo.three_caches))
  = Dict.keys (_CACHES Demo.three_caches).
Proof.
  assert (Hrun : add_resizable_cache "PLAIN" 10 Demo.three_caches
                 = (Ok tt, Demo.after [Register "PLAIN" 10] Demo.three_caches, []))
    by (vm_compute; reflexivity).
  assert (Hin : Str.lower "PLAIN" ∈ Dict.keys (_CACHES Demo.three_caches))
    by compute_done.
  split; [exact Hrun|]. split; [exact Hin|].
  destruct (X2_registration_keeps_order _ _ _ _ _ _ Hrun) as [Hkeep _].
  exact (Hkeep Hin).
Defined.

Lemma X3_witness :
  read_config 1 Demo.sequence_factors Demo.three_caches
  = (Raise (ConfigError msg_not_a_dict),
     Demo.after [Load 1 Demo.sequence_factors] Demo.three_caches, []) /\
  _CACHES (Demo.after [Load 1 Demo.sequence_factors] Demo.three_caches)
  = _CACHES Demo.three_caches /\
  heap (Demo.after [Load 1 Demo.sequence_factors] Demo.three_caches) !! 2
  = heap Demo.three_caches !! 2.
Proof.
  assert (Hrun : read_config 1 Demo.sequence_factors Demo.three_caches
                 = (Raise (ConfigError msg_not_a_dict),
                    Demo.after [Load 1 Demo.sequence_factors] Demo.three_caches, []))
    by (vm_compute; reflexivity).
  split; [exact Hrun|].
  destruct (X3_load_touches_only_its_object _ _ _ _ _ _ Hrun)
    as (Hreg & _ & Hheap & _).
  split; [exact Hreg|]. apply Hheap. discriminate.
Defined.

Lemma X4_witness :
  read_config 1 Demo.file_over_env Demo.three_caches
  = (Ok tt, Demo.after [Load 1 Demo.file_over_env] Demo.three_caches,
     Demo.file_over_env_calls) /\
  read_config 1 Demo.file_over_env
    (Demo.after [Load 1 Demo.file_over_env] Demo.three_caches)
  = (Ok tt, Demo.after [Load 1 Demo.file_over_env] Demo.three_caches,
     Demo.file_over_env_calls).
Proof.
  assert (Hrun : read_config 1 Demo.file_over_env Demo.three_caches
                 = (Ok tt, Demo.after [Load 1 Demo.file_over_env] Demo.three_caches,
                    Demo.file_over_env_calls)) by (vm_compute; reflexivity).
  split; [exact Hrun|].
  exact (X4_load_is_idempotent _ _ _ _ _ Hrun).
Defined.


Lemma X6_witness :
  read_config 1 Demo.two Demo.three_caches
  = (Ok tt, Demo.after [Load 1 Demo.two] Demo.three_caches, Demo.two_calls) /\
  read_config 2 Demo.booleans (Demo.after [Load 1 Demo.two] Demo.three_caches)
  = (Ok tt, Demo.after [Load 1 Demo.two; Load 2 Demo.booleans] Demo.three_caches,
     [Resize "get_users" 7 (PyBool false);
      Resize "other" 8 (PyFloat (inject_Z 5));
      Resize "plain" 9 (PyBool true)]) /\
  exists s' t,
    add_resizable_cache "late" 11
      (Demo.after [Load 1 Demo.two; Load 2 Demo.booleans] Demo.three_caches)
    = (Ok tt, s', t) /\
    calls_to "late" t = [Resize "late" 11 (PyBool true)].
Proof.
  assert (Hrun1 : read_config 1 Demo.two Demo.three_caches
                  = (Ok tt, Demo.after [Load 1 Demo.two] Demo.three_caches,
                     Demo.two_calls)) by (vm_compute; reflexivity).
  assert (Hrun2 : read_config 2 Demo.booleans
                    (Demo.after [Load 1 Demo.two] Demo.three_caches)
                  = (Ok tt,
                     Demo.after [Load 1 Demo.two; Load 2 Demo.booleans]
                       Demo.three_caches,
                     [Resize "get_users" 7 (PyBool false);
                      Resize "other" 8 (PyFloat (inject_Z 5));
                      Resize "plain" 9 (PyBool true)])) by (vm_compute; reflexivity).
  split; [exact Hrun1|]. split; [exact Hrun2|].
  destruct (X6_latest_load_decides 1 2 _ _ _ _ _ _ _ "late" 11 Hrun1 Hrun2)
    as (m & g & Hm & Hg & _ & _ & Hadd).
  eexists _, _. split; [exact Hadd|].
  vm_compute in Hm, Hg. injection Hm as <-. injection Hg as <-.
  vm_compute. reflexivity.
Defined.

Lemma X7_witness :
  read_config 1 Demo.fast (Demo.after [Load 2 Demo.two] Demo.three_caches)
  = (Raise (ConfigError msg_global_factor),
     Demo.after [Load 2 Demo.two; Load 1 Demo.fast] Demo.three_caches, []) /\
  _ENSURE_CORRECT_CACHE_SIZING
    (Demo.after [Load 2 Demo.two; Load 1 Demo.fast] Demo.three_caches)
  = _ENSURE_CORRECT_CACHE_SIZING (Demo.after [Load 2 Demo.two] Demo.three_caches).
Proof.
  assert (Hrun : read_config 1 Demo.fast
                   (Demo.after [Load 2 Demo.two] Demo.three_caches)
                 = (Raise (ConfigError msg_global_factor),
                    Demo.after [Load 2 Demo.two; Load 1 Demo.fast]
                      Demo.three_caches, []))
    by (vm_compute; reflexivity).
  split; [exact Hrun|].
  destruct (X7_load_raises_only_these _ _ _ _ _ _ Hrun) as (_ & _ & Hens & _).
  exact Hens.
Defined.

Lemma X8_witness :
  parse_size (size_arg Demo.two) = Some 10240%Z /\
  ("SYNAPSE_CACHE_FACTOR_FOO", "abc")
    ∈ environ_of 1 (Demo.fresh Demo.malformed_environment) /\
  is_override "SYNAPSE_CACHE_FACTOR_FOO" = true /\
  float_of_str "abc" = None /\
  exists s',
    read_config 1 Demo.two (Demo.fresh Demo.malformed_environment)
    = (Raise ValueError, s', []) /\
    DEFAULT_CACHE_SIZE_FACTOR s' = PyInt 2.
Proof.
  assert (Hsize : parse_size (size_arg Demo.two) = Some 10240%Z) by reflexivity.
  assert (Hin : ("SYNAPSE_CACHE_FACTOR_FOO", "abc")
                  ∈ environ_of 1 (Demo.fresh Demo.malformed_environment))
    by compute_done.
  assert (Hov : is_override "SYNAPSE_CACHE_FACTOR_FOO" = true) by reflexivity.
  assert (Hf : float_of_str "abc" = None) by reflexivity.
  split; [exact Hsize|]. split; [exact Hin|]. split; [exact Hov|].
  split; [exact Hf|].
  destruct (X8_malformed_override_raises 1 Demo.two
              (Demo.fresh Demo.malformed_environment) 10240%Z
              [("global_factor", PyInt 2)] _ _ Hsize eq_refl eq_refl Hin Hov Hf)
    as (s' & Hrun & Hdflt & _).
  exists s'. split; [exact Hrun|]. rewrite Hdflt. reflexivity.
Defined.

Lemma X10_witness :
  NoDup (Dict.keys (_CACHES Demo.three_caches)) /\
  read_config 1 Demo.file_over_env Demo.three_caches
  = (Ok tt, Demo.after [Load 1 Demo.file_over_env] Demo.three_caches,
     Demo.file_over_env_calls) /\
  ((_CACHE_PREFIX ++ "_" ++ "OTHER")%string, "5")
    ∈ environ_of 1 Demo.three_caches /\
  float_of_str "5" = Some (inject_Z 5) /\
  calls_to "other" Demo.file_over_env_calls
  = [Resize "other" 8 (PyFloat (inject_Z 5))].
Proof.
  assert (Hnd : NoDup (Dict.keys (_CACHES Demo.three_caches))) by compute_done.
  assert (Hrun : read_config 1 Demo.file_over_env Demo.three_caches
                 = (Ok tt, Demo.after [Load 1 Demo.file_over_env] Demo.three_caches,
                    Demo.file_over_env_calls)) by (vm_compute; reflexivity).
  assert (Hin : ((_CACHE_PREFIX ++ "_" ++ "OTHER")%string, "5")
                  ∈ environ_of 1 Demo.three_caches) by compute_done.
  split; [exact Hnd|]. split; [exact Hrun|]. split; [exact Hin|].
  destruct (X10_environment_override_applies 1 Demo.file_over_env
              Demo.three_caches _ _ "OTHER" "5" (inject_Z 5) Hnd Hrun Hin)
    as (Hf & m & _ & _ & Hcalls).
  - intros key' val' Hin' Hov Hname.
    change (environ_of 1 Demo.three_caches) with Demo.environment in Hin'.
    repeat (apply elem_of_cons in Hin' as [[= -> ->]|Hin'];
            [first [reflexivity|discriminate]|]).
    apply elem_of_nil in Hin'. contradiction.
  - intros cc d Hcc Hd k Hk. injection Hcc as <-. injection Hd as <-.
    apply list_elem_of_singleton in Hk. subst k. discriminate.
  - split; [exact Hf|]. apply (Hcalls 8). compute_done.
Defined.

Lemma X11_witness :
  parse_size (size_arg Demo.null_caches) = Some 10240%Z /\
  Dict.get Demo.null_caches "caches" = Some PyNone /\
  is_dict PyNone = false /\
  exists s',
    read_config 1 Demo.null_caches Demo.three_caches
    = (Raise AttributeError, s', []) /\
    event_cache_size (deref 1 s') = Some 10240%Z /\
    DEFAULT_CACHE_SIZE_FACTOR s' = PyFloat (1 # 2)%Q.
Proof.
  assert (Hsize : parse_size (size_arg Demo.null_caches) = Some 10240%Z)
    by reflexivity.
  assert (Hget : Dict.get Demo.null_caches "caches" = Some PyNone) by reflexivity.
  assert (Hnd : is_dict PyNone = false) by reflexivity.
  split; [exact Hsize|]. split; [exact Hget|]. split; [exact Hnd|].
  destruct (X11_caches_section_must_be_mapping 1 Demo.null_caches
              Demo.three_caches _ _ Hsize Hget Hnd)
    as (s' & Hrun & Hev & _ & _ & Hdflt & _).
  exists s'. split; [exact Hrun|]. split; [exact Hev|].
  rewrite Hdflt. reflexivity.
Defined.

Lemma X12_witness :
  parse_size (size_arg Demo.no_caches) = Some 5120%Z /\
  Dict.get Demo.no_caches "caches" = None /\
  is_number (DEFAULT_CACHE_SIZE_FACTOR Demo.three_caches) = true /\
  env_factors (environ_of 1 Demo.three_caches) [] = Ok Demo.env_overrides /\
  exists s',
    read_config 1 Demo.no_caches Demo.three_caches
    = (Ok tt, s',
       [Resize "get_users" 7 (PyFloat (inject_Z 5));
        Resize "other" 8 (PyFloat (inject_Z 5));
        Resize "plain" 9 (PyFloat (1 # 2)%Q)]) /\
    DEFAULT_CACHE_SIZE_FACTOR s' = PyFloat (1 # 2)%Q.
Proof.
  assert (Hsize : parse_size (size_arg Demo.no_caches) = Some 5120%Z)
    by reflexivity.
  assert (Hnone : Dict.get Demo.no_caches "caches" = None) by reflexivity.
  assert (Hnum : is_number (DEFAULT_CACHE_SIZE_FACTOR Demo.three_caches) = true)
    by reflexivity.
  assert (Henv : env_factors (environ_of 1 Demo.three_caches) []
                 = Ok Demo.env_overrides) by reflexivity.
  split; [exact Hsize|]. split; [exact Hnone|]. split; [exact Hnum|].
  split; [exact Henv|].
  destruct (X12_missing_caches_section_uses_defaults 1 Demo.no_caches
              Demo.three_caches _ _ Hsize Hnone Hnum Henv)
    as (s' & Hrun & _ & _ & Hdflt).
  exists s'. split; [|rewrite Hdflt; reflexivity].
  rewrite Hrun. f_equal.
Defined.

Lemma X13_witness :
  import_module Demo.environment ∅ = Ok (Demo.fresh Demo.environment) /\
  run Demo.busy_ops (Demo.fresh Demo.environment)
  = (Demo.after Demo.busy_ops (Demo.fresh Demo.environment),
     snd (run Demo.busy_ops (Demo.fresh Demo.environment))) /\
  global_factor (deref 1 (Demo.after Demo.busy_ops (Demo.fresh Demo.environment)))
  = Some (PyStr "fast") /\
  is_number
    (DEFAULT_CACHE_SIZE_FACTOR
       (Demo.after Demo.busy_ops (Demo.fresh Demo.environment))) = true.
Proof.
  assert (Himp : import_module Demo.environment ∅
                 = Ok (Demo.fresh Demo.environment)) by reflexivity.
  assert (Hrun : run Demo.busy_ops (Demo.fresh Demo.environment)
                 = (Demo.after Demo.busy_ops (Demo.fresh Demo.environment),
                    snd (run Demo.busy_ops (Demo.fresh Demo.environment))))
    by (vm_compute; reflexivity).
  split; [exact Himp|]. split; [exact Hrun|].
  split; [vm_compute; reflexivity|].
  exact (X13_default_factor_is_always_a_number _ _ _ _ _ _ Himp Hrun).
Defined.

Lemma X14_witness :
  import_module Demo.environment ∅ = Ok (Demo.fresh Demo.environment) /\
  run Demo.busy_ops (Demo.fresh Demo.environment)
  = (Demo.after Demo.busy_ops (Demo.fresh Demo.environment),
     snd (run Demo.busy_ops (Demo.fresh Demo.environment))) /\
  _CACHES (Demo.after Demo.busy_ops (Demo.fresh Demo.environment))
  = [("get_users", 8); ("late", 11)] /\
  _reset (Demo.after Demo.busy_ops (Demo.fresh Demo.environment))
  = (Ok tt,
     with_heap (heap (Demo.after Demo.busy_ops (Demo.fresh Demo.environment)))
       (Demo.fresh Demo.environment),
     []).
Proof.
  assert (Himp : import_module Demo.environment ∅
                 = Ok (Demo.fresh Demo.environment)) by reflexivity.
  assert (Hrun : run Demo.busy_ops (Demo.fresh Demo.environment)
                 = (Demo.after Demo.busy_ops (Demo.fresh Demo.environment),
                    snd (run Demo.busy_ops (Demo.fresh Demo.environment))))
    by (vm_compute; reflexivity).
  split; [exact Himp|]. split; [exact Hrun|].
  split; [vm_compute; reflexivity|].
  exact (X14_reset_restores_import _ _ _ _ _ _ Himp Hrun).
Defined.

Lemma X15_witness :
  read_config 1 Demo.file_over_env Demo.three_caches
  = (Ok tt, Demo.after [Load 1 Demo.file_over_env] Demo.three_caches,
     Demo.file_over_env_calls) /\
  exists m,
    cache_factors
      (deref 1 (Demo.after [Load 1 Demo.file_over_env] Demo.three_caches))
    = Some m /\
    NoDup (Dict.keys m) /\
    Dict.keys m = ["get_users"; "other"].
Proof.
  assert (Hrun : read_config 1 Demo.file_over_env Demo.three_caches
                 = (Ok tt, Demo.after [Load 1 Demo.file_over_env] Demo.three_caches,
                    Demo.file_over_env_calls)) by (vm_compute; reflexivity).
  split; [exact Hrun|].
  destruct (X15_stored_factors_are_normalised _ _ _ _ _ Hrun)
    as (m & Hm & Hnd & _).
  exists m. split; [exact Hm|]. split; [exact Hnd|].
  vm_compute in Hm. injection Hm as <-. reflexivity.
Defined.

Lemma X16_witness :
  import_module Demo.environment ∅ = Ok (Demo.fresh Demo.environment) /\
  run Demo.busy_ops (Demo.fresh Demo.environment)
  = (Demo.after Demo.busy_ops (Demo.fresh Demo.environment),
     snd (run Demo.busy_ops (Demo.fresh Demo.environment))) /\
  NoDup (Dict.keys
           (_CACHES (Demo.after Demo.busy_ops (Demo.fresh Demo.environment)))) /\
  Str.lower "get_users" = "get_users".
Proof.
  assert (Himp : import_module Demo.environment ∅
                 = Ok (Demo.fresh Demo.environment)) by reflexivity.
  assert (Hrun : run Demo.busy_ops (Demo.fresh Demo.environment)
                 = (Demo.after Demo.busy_ops (Demo.fresh Demo.environment),
                    snd (run Demo.busy_ops (Demo.fresh Demo.environment))))
    by (vm_compute; reflexivity).
  split; [exact Himp|]. split; [exact Hrun|].
  destruct (X16_registry_names_are_lower_case _ _ _ _ _ _ Himp Hrun)
    as [Hnd Hlow].
  split; [exact Hnd|]. apply Hlow. compute_done.
Defined.
